(** * kubectl-rescale: the scale-to-zero-and-back cycle

    A shallow embedding of [pkg/cmd] of kubectl-rescale (the Go source of the
    plugin) and the properties of its scale cycle.

    - Go values of type [error] are [option error] ([None] is [nil]).
    - Go pointers are [option] values; dereferencing [None] is the run-time
      panic of a nil pointer dereference.
    - A Go function is a computation [M A]: it runs against the state of the
      cluster, emits the events it performs (API requests with their answers,
      sleeps, lines printed) in the order they happen, and either returns or
      panics.
    - The Kubernetes client is external to the program: it is a record of
      answer functions over an arbitrary cluster state.
    - Go's [int32] and [int] are [Z]: the program copies and compares replica
      counts and does no arithmetic on them, and the counter of a wait stays
      below its number of tries. *)

From Stdlib Require Import ZArith List String Lia Bool.
From stdpp Require Import base option gmap strings.
Import ListNotations.

#[local] Open Scope string_scope.
#[local] Open Scope Z_scope.

(** ** Values *)

(** An operand of a [fmt] verb. *)
Inductive Arg : Type :=
| ArgString (s : string)
| ArgInt (z : Z).

(** A piece of text: a literal, or a [fmt] format with its operands (the
    rendering is [fmt]'s). *)
Inductive text : Type :=
| Literal (s : string)
| Sprintf (format : string) (args : list Arg).

Inductive StatusReason : Type :=
| StatusReasonNotFound
| StatusReasonOther (reason : string).

(** Go [error] values the program meets: [*errors.StatusError] of
    apimachinery, the errors built with [fmt.Errorf], and any other error. *)
Inductive error : Type :=
| StatusError (reason : StatusReason) (message : string)
| Errorf (format : string) (args : list Arg)
| OtherError (message : string).

(** [err.Error()] *)
Definition Error (err : error) : text :=
  match err with
  | StatusError _ message => Literal message
  | Errorf format args => Sprintf format args
  | OtherError message => Literal message
  end.

(** [errors.IsNotFound(err)] *)
Definition IsNotFound (err : option error) : bool :=
  match err with
  | Some (StatusError StatusReasonNotFound _) => true
  | _ => false
  end.

(** The type assertion of [err] to a [StatusError] pointer
    ([statusError, isStatus := ...]): the message of the status when the
    assertion holds. *)
Definition asStatusError (err : option error) : option string :=
  match err with
  | Some (StatusError _ message) => Some message
  | _ => None
  end.

(** The kind of workload an [AppsV1()] client talks about:
    [clientset.AppsV1().Deployments(ns)] or [.StatefulSets(ns)]. *)
Inductive Kind : Type := Deployments | StatefulSets.

(** The fields of [v1.Deployment] and [v1.StatefulSet] the program reads:
    [Name], [Spec.Replicas] (a [*int32]) and [Status.Replicas]. *)
Record Workload : Type := {
  Name : string;
  Spec_Replicas : option Z;
  Status_Replicas : Z
}.

(** [autoscalingv1.Scale]: desired ([Spec.Replicas]) and observed
    ([Status.Replicas]) replica counts. *)
Record Scale : Type := {
  scale_Spec_Replicas : Z;
  scale_Status_Replicas : Z
}.

(** [scale.Spec.Replicas = replicas] *)
Definition set_Spec_Replicas (scale : Scale) (replicas : Z) : Scale :=
  {| scale_Spec_Replicas := replicas;
     scale_Status_Replicas := scale_Status_Replicas scale |}.

(** [api.Context] and [api.Config] of client-go's [clientcmd]: the fields the
    program reads.  [Contexts] is a Go map to pointers. *)
Record api_Context : Type := { Namespace : string }.

Record api_Config : Type := {
  Contexts : gmap string (option api_Context);
  CurrentContext : string
}.

(** [rest.Config], which the program only hands over to client-go. *)
Record rest_Config : Type := { Host : string }.

(** [RescaleOptions], without [configFlags] and the [IOStreams]: what these
    give is in [Command] below. *)
Record RescaleOptions : Type := {
  userSpecifiedContext : string;
  userSpecifiedNamespace : string;
  rawConfig : api_Config;
  restConfig : option rest_Config;
  targetName : string;
  targetKind : string;
  maxWaitSeconds : Z
}.

Definition set_userSpecifiedContext (v : string) (o : RescaleOptions) :=
  {| userSpecifiedContext := v;
     userSpecifiedNamespace := userSpecifiedNamespace o;
     rawConfig := rawConfig o; restConfig := restConfig o;
     targetName := targetName o; targetKind := targetKind o;
     maxWaitSeconds := maxWaitSeconds o |}.
Definition set_userSpecifiedNamespace (v : string) (o : RescaleOptions) :=
  {| userSpecifiedContext := userSpecifiedContext o;
     userSpecifiedNamespace := v;
     rawConfig := rawConfig o; restConfig := restConfig o;
     targetName := targetName o; targetKind := targetKind o;
     maxWaitSeconds := maxWaitSeconds o |}.
Definition set_rawConfig (v : api_Config) (o : RescaleOptions) :=
  {| userSpecifiedContext := userSpecifiedContext o;
     userSpecifiedNamespace := userSpecifiedNamespace o;
     rawConfig := v; restConfig := restConfig o;
     targetName := targetName o; targetKind := targetKind o;
     maxWaitSeconds := maxWaitSeconds o |}.
Definition set_restConfig (v : option rest_Config) (o : RescaleOptions) :=
  {| userSpecifiedContext := userSpecifiedContext o;
     userSpecifiedNamespace := userSpecifiedNamespace o;
     rawConfig := rawConfig o; restConfig := v;
     targetName := targetName o; targetKind := targetKind o;
     maxWaitSeconds := maxWaitSeconds o |}.
Definition set_targetName (v : string) (o : RescaleOptions) :=
  {| userSpecifiedContext := userSpecifiedContext o;
     userSpecifiedNamespace := userSpecifiedNamespace o;
     rawConfig := rawConfig o; restConfig := restConfig o;
     targetName := v; targetKind := targetKind o;
     maxWaitSeconds := maxWaitSeconds o |}.
Definition set_targetKind (v : string) (o : RescaleOptions) :=
  {| userSpecifiedContext := userSpecifiedContext o;
     userSpecifiedNamespace := userSpecifiedNamespace o;
     rawConfig := rawConfig o; restConfig := restConfig o;
     targetName := targetName o; targetKind := v;
     maxWaitSeconds := maxWaitSeconds o |}.
Definition set_maxWaitSeconds (v : Z) (o : RescaleOptions) :=
  {| userSpecifiedContext := userSpecifiedContext o;
     userSpecifiedNamespace := userSpecifiedNamespace o;
     rawConfig := rawConfig o; restConfig := restConfig o;
     targetName := targetName o; targetKind := targetKind o;
     maxWaitSeconds := v |}.

(** What the cobra command and the config flags of one invocation give to
    [Complete]: the kubeconfig as loaded, the REST configuration, and the
    parsed flags, each with the [error] of reading it. *)
Record Command : Type := {
  RawConfig : api_Config * option error;
  ToRESTConfig : option rest_Config * option error;
  GetString_context : string * option error;
  GetInt_max_wait_seconds : Z * option error;
  GetString_namespace : string * option error
}.

(** ** Events, panics and computations *)

Inductive Event : Type :=
| EvGet (k : Kind) (namespace name : string)
        (answer : option Workload * option error)
| EvGetScale (k : Kind) (namespace name : string)
             (answer : option Scale * option error)
| EvUpdateScale (k : Kind) (namespace name : string) (scale : Scale)
                (answer : option Scale * option error)
| EvSleep
| EvPrintf (format : string) (args : list Arg)
| EvPrintln (line : text).

Inductive panic_value : Type :=
| PanicText (t : text)
| NilPointerDereference.

Inductive outcome (A : Type) : Type :=
| Ret (a : A)
| Panic (p : panic_value).
Arguments Ret {A} a.
Arguments Panic {A} p.

(** The client: the [error] of [kubernetes.NewForConfig], what the cluster
    answers to each request, and how it moves while the program sleeps for a
    second. *)
Record Clientset (W : Type) : Type := {
  NewForConfig : option rest_Config -> option error;
  Get : Kind -> string -> string -> W -> W * (option Workload * option error);
  GetScale : Kind -> string -> string -> W -> W * (option Scale * option error);
  UpdateScale :
    Kind -> string -> string -> Scale -> W -> W * (option Scale * option error);
  Sleep : W -> W
}.
Arguments NewForConfig {W} _ _.
Arguments Get {W} _ _ _ _ _.
Arguments GetScale {W} _ _ _ _ _.
Arguments UpdateScale {W} _ _ _ _ _ _.
Arguments Sleep {W} _ _.

Definition M (W A : Type) : Type := W -> W * list Event * outcome A.

Definition ret {W A} (a : A) : M W A := fun w => (w, [], Ret a).

Definition bind {W A B} (m : M W A) (f : A -> M W B) : M W B :=
  fun w =>
    match m w with
    | (w1, t1, Ret a) =>
        match f a w1 with
        | (w2, t2, r) => (w2, (t1 ++ t2)%list, r)
        end
    | (w1, t1, Panic p) => (w1, t1, Panic p)
    end.

#[global] Instance M_ret {W} : MRet (M W) := fun A a => ret a.
#[global] Instance M_bind {W} : MBind (M W) := fun A B f m => bind m f.

Definition panic {W A} (p : panic_value) : M W A := fun w => (w, [], Panic p).

Definition emit {W} (e : Event) : M W unit := fun w => (w, [e], Ret tt).

(** Reading through a pointer. *)
Definition deref {W A} (p : option A) : M W A :=
  match p with
  | Some a => ret a
  | None => panic NilPointerDereference
  end.

Definition events {W A} (r : W * list Event * outcome A) : list Event :=
  snd (fst r).
Definition result {W A} (r : W * list Event * outcome A) : outcome A := snd r.
Definition final {W A} (r : W * list Event * outcome A) : W := fst (fst r).

(** [fmt.Printf], [fmt.Println] and [panic(err.Error())] *)
Definition Printf {W} (format : string) (args : list Arg) : M W unit :=
  emit (EvPrintf format args).
Definition Println {W} (line : text) : M W unit := emit (EvPrintln line).
Definition panic_Error {W A} (err : error) : M W A :=
  panic (PanicText (Error err)).

(** ** [Complete] *)

(** [len(s)], [strings.HasPrefix] and [strings.TrimPrefix] *)
Definition len (s : string) : Z := Z.of_nat (String.length s).

Definition HasPrefix (s prefix : string) : bool := String.prefix prefix s.

Definition TrimPrefix (s prefix : string) : string :=
  if HasPrefix s prefix
  then String.substring (String.length prefix)
         (String.length s - String.length prefix)%nat s
  else s.

Definition errNoContext : error :=
  Errorf "no or invalid context is set, use %q to select a new one"
    [ArgString "kubectl config use-context <context>"].

(** The test on the context in [Complete]: a context given on the command
    line must be a key of [Contexts]; without one, the kubeconfig must name a
    current context. *)
Definition noContext (config : api_Config) (context : string) : bool :=
  if 0 <? len context
  then negb (bool_decide (is_Some (Contexts config !! context)))
  else len (CurrentContext config) =? 0.

(** The chain of tests on [args[0]] in [Complete]: the pair of [targetName]
    and [targetKind] it stores. *)
Definition target (arg : string) : string * string :=
  if HasPrefix arg "deployment/"
  then (TrimPrefix arg "deployment/", "deployment")
  else if HasPrefix arg "deploy/"
  then (TrimPrefix arg "deploy/", "deployment")
  else if HasPrefix arg "statefulset/"
  then (TrimPrefix arg "statefulset/", "statefulset")
  else if HasPrefix arg "sts/"
  then (TrimPrefix arg "sts/", "statefulset")
  else (arg, "unknown").

(** [Complete] works on the options only: it is given no client.  It returns
    the options as it leaves them, with its [error] or its panic. *)
Definition Complete (cmd : Command) (args : list string) (o : RescaleOptions)
  : RescaleOptions * outcome (option error) :=
  let o := set_rawConfig (fst (RawConfig cmd)) o in
  match snd (RawConfig cmd) with
  | Some e => (o, Ret (Some e))
  | None =>
  let o := set_restConfig (fst (ToRESTConfig cmd)) o in
  match snd (ToRESTConfig cmd) with
  | Some e => (o, Panic (PanicText (Error e)))
  | None =>
  let o := set_userSpecifiedContext (fst (GetString_context cmd)) o in
  match snd (GetString_context cmd) with
  | Some e => (o, Ret (Some e))
  | None =>
  if noContext (rawConfig o) (userSpecifiedContext o)
  then (o, Ret (Some errNoContext))
  else
  let o := set_maxWaitSeconds (fst (GetInt_max_wait_seconds cmd)) o in
  match snd (GetInt_max_wait_seconds cmd) with
  | Some e => (o, Ret (Some e))
  | None =>
  if maxWaitSeconds o <=? 0
  then (o, Ret (Some
          (Errorf "invalid max number of waiting seconds provided" [])))
  else
  match args with
  | [arg] =>
      let o := set_targetKind (snd (target arg))
                 (set_targetName (fst (target arg)) o) in
      let o := set_userSpecifiedNamespace (fst (GetString_namespace cmd)) o in
      match snd (GetString_namespace cmd) with
      | Some e => (o, Ret (Some e))
      | None => (o, Ret None)
      end
  | _ =>
      (o, Ret (Some
         (Errorf "either a deployment or a statefulset must be provided" [])))
  end
  end end end end.

Section Client.
Context {W : Type} (clientset : Clientset W).

(** The three requests, each recorded with its answer, and [time.Sleep]. *)
Definition call_Get (k : Kind) (namespace name : string)
  : M W (option Workload * option error) :=
  fun w =>
    let (w', answer) := Get clientset k namespace name w in
    (w', [EvGet k namespace name answer], Ret answer).

Definition call_GetScale (k : Kind) (namespace name : string)
  : M W (option Scale * option error) :=
  fun w =>
    let (w', answer) := GetScale clientset k namespace name w in
    (w', [EvGetScale k namespace name answer], Ret answer).

Definition call_UpdateScale (k : Kind) (namespace name : string)
  (scale : Scale) : M W (option Scale * option error) :=
  fun w =>
    let (w', answer) := UpdateScale clientset k namespace name scale w in
    (w', [EvUpdateScale k namespace name scale answer], Ret answer).

Definition time_Sleep : M W unit :=
  fun w => (Sleep clientset w, [EvSleep], Ret tt).

(** ** The functions of [pkg/cmd] *)

Definition GetDeployment (namespace targetName : string)
  : M W (option Workload * option error) :=
  '(deployment, err) ← call_Get Deployments namespace targetName;
  if IsNotFound err then ret (None, err)
  else match asStatusError err with
       | Some message =>
           Printf "Error getting deployment %s in %s: %v\n"
             [ArgString targetName; ArgString namespace; ArgString message] ;;
           ret (None, err)
       | None =>
           match err with
           | Some e => panic_Error e
           | None => ret (deployment, err)
           end
       end.

Definition GetStatefulSet (namespace targetName : string)
  : M W (option Workload * option error) :=
  '(statefulSet, err) ← call_Get StatefulSets namespace targetName;
  if IsNotFound err then ret (None, err)
  else match asStatusError err with
       | Some message =>
           Printf "Error getting statefulset %s in %s: %v\n"
             [ArgString targetName; ArgString namespace; ArgString message] ;;
           ret (None, err)
       | None =>
           match err with
           | Some e => panic_Error e
           | None => ret (statefulSet, err)
           end
       end.

Definition UpdateDeploymentScale (namespace targetName : string)
  (replicas : Z) : M W (option Scale * option error) :=
  '(scale, err) ← call_GetScale Deployments namespace targetName;
  match err with
  | Some e => ret (None, Some e)
  | None =>
      s ← deref scale;
      let scale := set_Spec_Replicas s replicas in
      '(_, err) ← call_UpdateScale Deployments namespace targetName scale;
      match err with
      | Some e => ret (None, Some e)
      | None => ret (Some scale, None)
      end
  end.

Definition UpdateStatefulSetScale (namespace targetName : string)
  (replicas : Z) : M W (option Scale * option error) :=
  '(scale, err) ← call_GetScale StatefulSets namespace targetName;
  match err with
  | Some e => ret (None, Some e)
  | None =>
      s ← deref scale;
      let scale := set_Spec_Replicas s replicas in
      '(_, err) ← call_UpdateScale StatefulSets namespace targetName scale;
      match err with
      | Some e => ret (None, Some e)
      | None => ret (Some scale, None)
      end
  end.

(** [for i := 0; i < tries; i++ { ... }] followed by the final [return]:
    [remaining] is the number of iterations still to run, [tries - i]. *)
Fixpoint WaitForDeploymentReplicas_from (namespace targetName : string)
  (replicas tries : Z) (remaining : nat) : M W (option error) :=
  match remaining with
  | O =>
      ret (Some (Errorf
        "deployment %s in %s has not reached %d replicas after %d tries"
        [ArgString targetName; ArgString namespace;
         ArgInt replicas; ArgInt tries]))
  | S remaining' =>
      '(scale, _) ← call_GetScale Deployments namespace targetName;
      s ← deref scale;
      if scale_Status_Replicas s =? replicas then ret None
      else
        time_Sleep ;;
        WaitForDeploymentReplicas_from namespace targetName replicas tries
          remaining'
  end.

Definition WaitForDeploymentReplicas (namespace targetName : string)
  (replicas tries : Z) : M W (option error) :=
  WaitForDeploymentReplicas_from namespace targetName replicas tries
    (Z.to_nat tries).

Fixpoint WaitForStatefulSetReplicas_from (namespace targetName : string)
  (replicas tries : Z) (remaining : nat) : M W (option error) :=
  match remaining with
  | O =>
      ret (Some (Errorf
        "statefulset %s in %s has not reached %d replicas after %d tries"
        [ArgString targetName; ArgString namespace;
         ArgInt replicas; ArgInt tries]))
  | S remaining' =>
      '(scale, _) ← call_GetScale StatefulSets namespace targetName;
      s ← deref scale;
      if scale_Status_Replicas s =? replicas then ret None
      else
        time_Sleep ;;
        WaitForStatefulSetReplicas_from namespace targetName replicas tries
          remaining'
  end.

Definition WaitForStatefulSetReplicas (namespace targetName : string)
  (replicas tries : Z) : M W (option error) :=
  WaitForStatefulSetReplicas_from namespace targetName replicas tries
    (Z.to_nat tries).

Definition ScaleDeployment (namespace targetName : string)
  (maxWaitSeconds : Z) : M W (option error) :=
  '(deployment, err) ← GetDeployment namespace targetName;
  match err with
  | Some e => ret (Some e)
  | None =>
      d ← deref deployment;
      let originalReplicas := Status_Replicas d in
      Printf "Deployment %s in %s has %d replicas. Scaling to 0...\n"
        [ArgString (Name d); ArgString namespace; ArgInt originalReplicas] ;;
      '(_, err) ← UpdateDeploymentScale namespace targetName 0;
      match err with
      | Some e => panic_Error e
      | None =>
      err ← WaitForDeploymentReplicas namespace targetName 0 maxWaitSeconds;
      match err with
      | Some e => panic_Error e
      | None =>
      Printf "Deployment %s in %s now has 0 replicas. Scaling back to %d...\n"
        [ArgString (Name d); ArgString namespace; ArgInt originalReplicas] ;;
      '(_, err) ← UpdateDeploymentScale namespace targetName
                     originalReplicas;
      match err with
      | Some e => panic_Error e
      | None =>
      err ← WaitForDeploymentReplicas namespace targetName
               originalReplicas 60;
      match err with
      | Some e => panic_Error e
      | None =>
      Printf "Deployment %s in %s has now been scaled back to %d\n"
        [ArgString (Name d); ArgString namespace; ArgInt originalReplicas] ;;
      ret None
      end end end end
  end.

Definition ScaleStatefulSet (namespace targetName : string)
  (maxWaitSeconds : Z) : M W (option error) :=
  '(statefulSet, err) ← GetStatefulSet namespace targetName;
  match err with
  | Some e => ret (Some e)
  | None =>
      d ← deref statefulSet;
      let originalReplicas := Status_Replicas d in
      Printf "StatefulSet %s in %s has %d replicas. Scaling to 0...\n"
        [ArgString (Name d); ArgString namespace; ArgInt originalReplicas] ;;
      '(_, err) ← UpdateStatefulSetScale namespace targetName 0;
      match err with
      | Some e => panic_Error e
      | None =>
      err ← WaitForStatefulSetReplicas namespace targetName 0 maxWaitSeconds;
      match err with
      | Some e => panic_Error e
      | None =>
      Printf "StatefulSet %s in %s now has 0 replicas. Scaling back to %d...\n"
        [ArgString (Name d); ArgString namespace; ArgInt originalReplicas] ;;
      '(_, err) ← UpdateStatefulSetScale namespace targetName
                     originalReplicas;
      match err with
      | Some e => panic_Error e
      | None =>
      err ← WaitForStatefulSetReplicas namespace targetName
               originalReplicas 60;
      match err with
      | Some e => panic_Error e
      | None =>
      Printf "StatefulSet %s in %s has now been scaled back to %d\n"
        [ArgString (Name d); ArgString namespace; ArgInt originalReplicas] ;;
      ret None
      end end end end
  end.

(** ** [Run] and the command *)

(** [Run] in three blocks, in the order of the source.  The namespace it
    works in: the one given on the command line, or the one of the context in
    the kubeconfig. *)
Definition Run_namespace (o : RescaleOptions) : M W string :=
  let ctx :=
    if 0 <? len (userSpecifiedContext o) then userSpecifiedContext o
    else CurrentContext (rawConfig o) in
  if 0 <? len (userSpecifiedNamespace o)
  then ret (userSpecifiedNamespace o)
  else c ← deref (default None (Contexts (rawConfig o) !! ctx));
       ret (Namespace c).

(** The block on the target: with the kind unknown, look for a
    deployment of that name, then for a statefulset.  It gives the options
    with the kind found, and the [error] [Run] returns at once, if any. *)
Definition Run_resolve (namespace : string) (o : RescaleOptions)
  : M W (RescaleOptions * option error) :=
  if String.eqb (targetKind o) "unknown" then
    '(_, err) ← GetDeployment namespace (targetName o);
    match err with
    | Some e =>
        if IsNotFound err then
          '(_, err) ← GetStatefulSet namespace (targetName o);
          if IsNotFound err then
            let notFoundError :=
              Errorf "deployment/statefulset %s cannot be found"
                [ArgString (targetName o)] in
            Println (Error notFoundError) ;;
            ret (o, Some notFoundError)
          else match err with
               | Some e => ret (o, Some e)
               | None => ret (set_targetKind "statefulset" o, None)
               end
        else ret (o, Some e)
    | None => ret (set_targetKind "deployment" o, None)
    end
  else ret (o, None).

(** The second block of [Run]: the cycle for the kind. *)
Definition Run_scale (namespace : string) (o : RescaleOptions)
  : M W (RescaleOptions * option error) :=
  if String.eqb (targetKind o) "deployment" then
    err ← ScaleDeployment namespace (targetName o) (maxWaitSeconds o);
    match err with
    | Some e => ret (o, Some e)
    | None => ret (o, None)
    end
  else if String.eqb (targetKind o) "statefulset" then
    err ← ScaleStatefulSet namespace (targetName o) (maxWaitSeconds o);
    match err with
    | Some e => ret (o, Some e)
    | None => ret (o, None)
    end
  else
    let notFoundError :=
      Errorf "unknown target kind %s" [ArgString (targetKind o)] in
    Println (Error notFoundError) ;;
    ret (o, Some notFoundError).

(** [Run] changes [o.targetKind]: it returns the options with its [error]. *)
Definition Run (o : RescaleOptions) : M W (RescaleOptions * option error) :=
  match NewForConfig clientset (restConfig o) with
  | Some e => panic_Error e
  | None =>
      namespace ← Run_namespace o;
      '(o, err) ← Run_resolve namespace o;
      match err with
      | Some e => ret (o, Some e)
      | None => Run_scale namespace o
      end
  end.

(** [RunE] of the cobra command: [Complete], then [Run]. *)
Definition RunE (cmd : Command) (args : list string) (o : RescaleOptions)
  : M W (RescaleOptions * option error) :=
  match Complete cmd args o with
  | (o, Ret (Some e)) => ret (o, Some e)
  | (o, Ret None) =>
      '(o, err) ← Run o;
      match err with
      | Some e => ret (o, Some e)
      | None => ret (o, None)
      end
  | (_, Panic p) => panic p
  end.

(** ** The two kinds at once

    The source has each function twice, for deployments and for statefulsets;
    these choose between the two. *)
Definition GetWorkload (k : Kind) :=
  match k with
  | Deployments => GetDeployment
  | StatefulSets => GetStatefulSet
  end.

Definition UpdateWorkloadScale (k : Kind) :=
  match k with
  | Deployments => UpdateDeploymentScale
  | StatefulSets => UpdateStatefulSetScale
  end.

Definition WaitForReplicas_from (k : Kind) :=
  match k with
  | Deployments => WaitForDeploymentReplicas_from
  | StatefulSets => WaitForStatefulSetReplicas_from
  end.

Definition WaitForReplicas (k : Kind) :=
  match k with
  | Deployments => WaitForDeploymentReplicas
  | StatefulSets => WaitForStatefulSetReplicas
  end.

Definition ScaleWorkload (k : Kind) :=
  match k with
  | Deployments => ScaleDeployment
  | StatefulSets => ScaleStatefulSet
  end.

End Client.

(** ** A small cluster to run the program on

    At most one deployment and one statefulset.  An update of the scale sets
    the desired count; while the program sleeps, a healthy workload brings
    its observed count to the desired one, a stuck one keeps it.  As
    client-go does, a request that fails answers an empty object with its
    error. *)
Module Sim.

Record workload : Type := {
  name : string;
  desired : Z;
  observed : Z;
  healthy : bool
}.

Record cluster : Type := {
  deployment : option workload;
  statefulset : option workload
}.

Definition find (k : Kind) (n : string) (c : cluster) : option workload :=
  match (match k with
         | Deployments => deployment c
         | StatefulSets => statefulset c
         end) with
  | Some x => if String.eqb n (name x) then Some x else None
  | None => None
  end.

Definition put (k : Kind) (x : workload) (c : cluster) : cluster :=
  match k with
  | Deployments => {| deployment := Some x; statefulset := statefulset c |}
  | StatefulSets => {| deployment := deployment c; statefulset := Some x |}
  end.

Definition settle (x : workload) : workload :=
  {| name := name x; desired := desired x;
     observed := if healthy x then desired x else observed x;
     healthy := healthy x |}.

Definition notFound : error := StatusError StatusReasonNotFound "not found".

Definition client : Clientset cluster := {|
  NewForConfig := fun _ => None;
  Get := fun k _ n c =>
    match find k n c with
    | Some x =>
        (c, (Some {| Name := name x; Spec_Replicas := Some (desired x);
                     Status_Replicas := observed x |}, None))
    | None =>
        (c, (Some {| Name := ""; Spec_Replicas := None;
                     Status_Replicas := 0 |}, Some notFound))
    end;
  GetScale := fun k _ n c =>
    match find k n c with
    | Some x =>
        (c, (Some {| scale_Spec_Replicas := desired x;
                     scale_Status_Replicas := observed x |}, None))
    | None =>
        (c, (Some {| scale_Spec_Replicas := 0;
                     scale_Status_Replicas := 0 |}, Some notFound))
    end;
  UpdateScale := fun k _ n s c =>
    match find k n c with
    | Some x =>
        (put k {| name := name x; desired := scale_Spec_Replicas s;
                  observed := observed x; healthy := healthy x |} c,
         (Some s, None))
    | None =>
        (c, (Some {| scale_Spec_Replicas := 0;
                     scale_Status_Replicas := 0 |}, Some notFound))
    end;
  Sleep := fun c =>
    {| deployment := option_map settle (deployment c);
       statefulset := option_map settle (statefulset c) |}
|}.

(** A deployment [nginx] with three replicas running. *)
Definition nginx : cluster :=
  {| deployment := Some {| name := "nginx"; desired := 3; observed := 3;
                           healthy := true |};
     statefulset := None |}.

(** A deployment whose single replica never goes away. *)
Definition stuck : cluster :=
  {| deployment := Some {| name := "nginx"; desired := 1; observed := 1;
                           healthy := false |};
     statefulset := None |}.

(** A statefulset whose two replicas never go away. *)
Definition stuck_mysql : cluster :=
  {| deployment := None;
     statefulset := Some {| name := "mysql"; desired := 2; observed := 2;
                            healthy := false |} |}.

(** A statefulset asked for three replicas, none of which comes up. *)
Definition pending : cluster :=
  {| deployment := None;
     statefulset := Some {| name := "mysql"; desired := 3; observed := 0;
                            healthy := false |} |}.

(** A deployment and a statefulset of the same name. *)
Definition both : cluster :=
  {| deployment := Some {| name := "web"; desired := 2; observed := 2;
                           healthy := true |};
     statefulset := Some {| name := "web"; desired := 1; observed := 1;
                            healthy := true |} |}.

(** The kubeconfig, the flags and the options of
    [kubectl rescale <arg> --max-wait-seconds=<n>]. *)
Definition config : api_Config :=
  {| Contexts := {[ "minikube" := Some {| Namespace := "default" |} ]};
     CurrentContext := "minikube" |}.

Definition command (maxWait : Z) : Command :=
  {| RawConfig := (config, None);
     ToRESTConfig := (Some {| Host := "https://127.0.0.1:8443" |}, None);
     GetString_context := ("", None);
     GetInt_max_wait_seconds := (maxWait, None);
     GetString_namespace := ("", None) |}.

Definition fresh : RescaleOptions :=
  {| userSpecifiedContext := ""; userSpecifiedNamespace := "";
     rawConfig := {| Contexts := ∅; CurrentContext := "" |};
     restConfig := None; targetName := ""; targetKind := "";
     maxWaitSeconds := 0 |}.

(** The options after [Complete] on a bare name. *)
Definition bare (n : string) : RescaleOptions :=
  fst (Complete (command 300) [n] fresh).

(** A deployment asked for no replica, with three still running. *)
Definition draining : cluster :=
  {| deployment := Some {| name := "nginx"; desired := 0; observed := 3;
                           healthy := true |};
     statefulset := None |}.

(** A deployment asked for five replicas while three are running. *)
Definition rolling : cluster :=
  {| deployment := Some {| name := "nginx"; desired := 5; observed := 3;
                           healthy := true |};
     statefulset := None |}.

(** A statefulset asked for four replicas while two are running. *)
Definition rolling_mysql : cluster :=
  {| deployment := None;
     statefulset := Some {| name := "mysql"; desired := 4; observed := 2;
                            healthy := true |} |}.

(** A deployment asked for three replicas, none of which comes up. *)
Definition pending_nginx : cluster :=
  {| deployment := Some {| name := "nginx"; desired := 3; observed := 0;
                           healthy := false |};
     statefulset := None |}.

(** The same client on a cluster with no room left: while the program
    sleeps the replicas that are too many go away, and none comes up. *)
Definition starve (x : workload) : workload :=
  {| name := name x; desired := desired x;
     observed := Z.min (observed x) (desired x);
     healthy := healthy x |}.

Definition starved : Clientset cluster := {|
  NewForConfig := NewForConfig client;
  Get := Get client;
  GetScale := GetScale client;
  UpdateScale := UpdateScale client;
  Sleep := fun c =>
    {| deployment := option_map starve (deployment c);
       statefulset := option_map starve (statefulset c) |}
|}.

End Sim.


(** ** Reading a trace *)

Definition answer : Type := option Scale * option error.

(** The updates of the scale requested, each with its answer, in order. *)
Fixpoint updates (tr : list Event) : list (Scale * answer) :=
  match tr with
  | [] => []
  | EvUpdateScale _ _ _ scale a :: tr => (scale, a) :: updates tr
  | _ :: tr => updates tr
  end.

(** The answers to the [GetScale] requests, in order. *)
Fixpoint observations (tr : list Event) : list answer :=
  match tr with
  | [] => []
  | EvGetScale _ _ _ a :: tr => a :: observations tr
  | _ :: tr => observations tr
  end.

(** What follows the [n]-th update of the scale ([tr] itself for [n = 0],
    nothing when there are fewer updates). *)
Fixpoint after_updates (n : nat) (tr : list Event) : list Event :=
  match n, tr with
  | O, _ => tr
  | S _, [] => []
  | S n', EvUpdateScale _ _ _ _ _ :: tr => after_updates n' tr
  | S _, _ :: tr => after_updates n tr
  end.

(** An answer that shows a scale with another observed count than
    [replicas]: the loop of the wait goes on. *)
Definition mismatch (replicas : Z) (a : answer) : Prop :=
  exists s, fst a = Some s /\ scale_Status_Replicas s <> replicas.

(** The events of polls that went on: each request is followed by a sleep. *)
Definition misses (k : Kind) (namespace name : string) (l : list answer)
  : list Event :=
  flat_map (fun a => [EvGetScale k namespace name a; EvSleep]) l.

(** The error of a wait that ran out of tries. *)
Definition WaitTimeout (k : Kind) (namespace name : string)
  (replicas tries : Z) : error :=
  Errorf
    (match k with
     | Deployments =>
         "deployment %s in %s has not reached %d replicas after %d tries"
     | StatefulSets =>
         "statefulset %s in %s has not reached %d replicas after %d tries"
     end)
    [ArgString name; ArgString namespace; ArgInt replicas; ArgInt tries].

(** The lines printed. *)
Definition says_get_error (k : Kind) (namespace name message : string)
  : Event :=
  EvPrintf
    (match k with
     | Deployments => "Error getting deployment %s in %s: %v\n"
     | StatefulSets => "Error getting statefulset %s in %s: %v\n"
     end)
    [ArgString name; ArgString namespace; ArgString message].

Definition says_start (k : Kind) (namespace : string) (d : Workload) : Event :=
  EvPrintf
    (match k with
     | Deployments => "Deployment %s in %s has %d replicas. Scaling to 0...\n"
     | StatefulSets =>
         "StatefulSet %s in %s has %d replicas. Scaling to 0...\n"
     end)
    [ArgString (Name d); ArgString namespace; ArgInt (Status_Replicas d)].

Definition says_zero (k : Kind) (namespace : string) (d : Workload) : Event :=
  EvPrintf
    (match k with
     | Deployments =>
         "Deployment %s in %s now has 0 replicas. Scaling back to %d...\n"
     | StatefulSets =>
         "StatefulSet %s in %s now has 0 replicas. Scaling back to %d...\n"
     end)
    [ArgString (Name d); ArgString namespace; ArgInt (Status_Replicas d)].

Definition says_done (k : Kind) (namespace : string) (d : Workload) : Event :=
  EvPrintf
    (match k with
     | Deployments => "Deployment %s in %s has now been scaled back to %d\n"
     | StatefulSets => "StatefulSet %s in %s has now been scaled back to %d\n"
     end)
    [ArgString (Name d); ArgString namespace; ArgInt (Status_Replicas d)].

Section Cycle.
Context {W : Type} (clientset : Clientset W).

(** The cycle of either kind, written once. *)
Definition ScaleCycle (k : Kind) (namespace targetName : string)
  (maxWaitSeconds : Z) : M W (option error) :=
  '(workload, err) ← GetWorkload clientset k namespace targetName;
  match err with
  | Some e => ret (Some e)
  | None =>
      d ← deref workload;
      emit (says_start k namespace d) ;;
      '(_, err) ← UpdateWorkloadScale clientset k namespace targetName 0;
      match err with
      | Some e => panic_Error e
      | None =>
      err ← WaitForReplicas clientset k namespace targetName 0
              maxWaitSeconds;
      match err with
      | Some e => panic_Error e
      | None =>
      emit (says_zero k namespace d) ;;
      '(_, err) ← UpdateWorkloadScale clientset k namespace targetName
                    (Status_Replicas d);
      match err with
      | Some e => panic_Error e
      | None =>
      err ← WaitForReplicas clientset k namespace targetName
              (Status_Replicas d) 60;
      match err with
      | Some e => panic_Error e
      | None => emit (says_done k namespace d) ;; ret None
      end end end end
  end.

End Cycle.

(** ** The runs of each function: events and outcome *)

Inductive get_run (k : Kind) (namespace name : string)
  : list Event -> outcome (option Workload * option error) -> Prop :=
| get_not_found a e :
    IsNotFound (Some e) = true ->
    get_run k namespace name
      [EvGet k namespace name (a, Some e)] (Ret (None, Some e))
| get_status_error a e message :
    IsNotFound (Some e) = false ->
    asStatusError (Some e) = Some message ->
    get_run k namespace name
      [EvGet k namespace name (a, Some e);
       says_get_error k namespace name message]
      (Ret (None, Some e))
| get_other_error a e :
    IsNotFound (Some e) = false ->
    asStatusError (Some e) = None ->
    get_run k namespace name
      [EvGet k namespace name (a, Some e)] (Panic (PanicText (Error e)))
| get_ok a :
    get_run k namespace name
      [EvGet k namespace name (a, None)] (Ret (a, None)).

Inductive update_run (k : Kind) (namespace name : string) (replicas : Z)
  : list Event -> outcome (option Scale * option error) -> Prop :=
| update_read_error a e :
    update_run k namespace name replicas
      [EvGetScale k namespace name (a, Some e)] (Ret (None, Some e))
| update_read_nil :
    update_run k namespace name replicas
      [EvGetScale k namespace name (None, None)]
      (Panic NilPointerDereference)
| update_refused s a e :
    update_run k namespace name replicas
      [EvGetScale k namespace name (Some s, None);
       EvUpdateScale k namespace name (set_Spec_Replicas s replicas)
         (a, Some e)]
      (Ret (None, Some e))
| update_done s a :
    update_run k namespace name replicas
      [EvGetScale k namespace name (Some s, None);
       EvUpdateScale k namespace name (set_Spec_Replicas s replicas)
         (a, None)]
      (Ret (Some (set_Spec_Replicas s replicas), None)).

Inductive wait_run (k : Kind) (namespace name : string) (replicas tries : Z)
  (n : nat) : list Event -> outcome (option error) -> Prop :=
| wait_found l s e :
    Forall (mismatch replicas) l -> (length l < n)%nat ->
    scale_Status_Replicas s = replicas ->
    wait_run k namespace name replicas tries n
      (misses k namespace name l ++ [EvGetScale k namespace name (Some s, e)])
      (Ret None)
| wait_timeout l :
    Forall (mismatch replicas) l -> length l = n ->
    wait_run k namespace name replicas tries n
      (misses k namespace name l)
      (Ret (Some (WaitTimeout k namespace name replicas tries)))
| wait_nil l e :
    Forall (mismatch replicas) l -> (length l < n)%nat ->
    wait_run k namespace name replicas tries n
      (misses k namespace name l ++ [EvGetScale k namespace name (None, e)])
      (Panic NilPointerDereference).

(** How an update or a wait that did not go well ends the cycle: with the
    panic of the step, or with the panic on its [error]. *)
Definition stops {A} (err : A -> option error) (r : outcome A)
  : option panic_value :=
  match r with
  | Panic p => Some p
  | Ret a =>
      match err a with
      | Some e => Some (PanicText (Error e))
      | None => None
      end
  end.

Inductive cycle_run (k : Kind) (namespace name : string) (maxWait : Z)
  : list Event -> outcome (option error) -> Prop :=
| cycle_get_error tg a e :
    get_run k namespace name tg (Ret (a, Some e)) ->
    cycle_run k namespace name maxWait tg (Ret (Some e))
| cycle_get_panic tg p :
    get_run k namespace name tg (Panic p) ->
    cycle_run k namespace name maxWait tg (Panic p)
| cycle_get_nil :
    cycle_run k namespace name maxWait
      [EvGet k namespace name (None, None)] (Panic NilPointerDereference)
| cycle_stop_down d tu ru p :
    update_run k namespace name 0 tu ru ->
    stops snd ru = Some p ->
    cycle_run k namespace name maxWait
      (EvGet k namespace name (Some d, None) :: says_start k namespace d
         :: tu)
      (Panic p)
| cycle_stop_wait_down d tu ru tw rw p :
    update_run k namespace name 0 tu ru ->
    stops snd ru = None ->
    wait_run k namespace name 0 maxWait (Z.to_nat maxWait) tw rw ->
    stops id rw = Some p ->
    cycle_run k namespace name maxWait
      (EvGet k namespace name (Some d, None) :: says_start k namespace d
         :: tu ++ tw)
      (Panic p)
| cycle_stop_up d tu ru tw rw tu' ru' p :
    update_run k namespace name 0 tu ru ->
    stops snd ru = None ->
    wait_run k namespace name 0 maxWait (Z.to_nat maxWait) tw rw ->
    stops id rw = None ->
    update_run k namespace name (Status_Replicas d) tu' ru' ->
    stops snd ru' = Some p ->
    cycle_run k namespace name maxWait
      (EvGet k namespace name (Some d, None) :: says_start k namespace d
         :: tu ++ tw ++ says_zero k namespace d :: tu')
      (Panic p)
| cycle_stop_wait_up d tu ru tw rw tu' ru' tw' rw' p :
    update_run k namespace name 0 tu ru ->
    stops snd ru = None ->
    wait_run k namespace name 0 maxWait (Z.to_nat maxWait) tw rw ->
    stops id rw = None ->
    update_run k namespace name (Status_Replicas d) tu' ru' ->
    stops snd ru' = None ->
    wait_run k namespace name (Status_Replicas d) 60 60 tw' rw' ->
    stops id rw' = Some p ->
    cycle_run k namespace name maxWait
      (EvGet k namespace name (Some d, None) :: says_start k namespace d
         :: tu ++ tw ++ says_zero k namespace d :: tu' ++ tw')
      (Panic p)
| cycle_done d tu ru tw rw tu' ru' tw' rw' :
    update_run k namespace name 0 tu ru ->
    stops snd ru = None ->
    wait_run k namespace name 0 maxWait (Z.to_nat maxWait) tw rw ->
    stops id rw = None ->
    update_run k namespace name (Status_Replicas d) tu' ru' ->
    stops snd ru' = None ->
    wait_run k namespace name (Status_Replicas d) 60 60 tw' rw' ->
    stops id rw' = None ->
    cycle_run k namespace name maxWait
      (EvGet k namespace name (Some d, None) :: says_start k namespace d
         :: tu ++ tw ++ says_zero k namespace d :: tu' ++ tw'
         ++ [says_done k namespace d])
      (Ret None).

(** ** Predicates of the statements *)

(** An answer with a scale that shows [replicas] observed, and no error. *)
Definition shows (replicas : Z) (a : answer) : Prop :=
  exists s, a = (Some s, None) /\ scale_Status_Replicas s = replicas.

(** The client with the [error] of every [GetScale] dropped. *)
Definition without_GetScale_errors {W} (c : Clientset W) : Clientset W :=
  {| NewForConfig := NewForConfig c;
     Get := Get c;
     GetScale := fun k namespace name w =>
       let '(w', (scale, _)) := GetScale c k namespace name w in
       (w', (scale, None));
     UpdateScale := UpdateScale c;
     Sleep := Sleep c |}.

(** The kind an event is about, for the requests. *)
Definition event_kind (e : Event) : option Kind :=
  match e with
  | EvGet k _ _ _ | EvGetScale k _ _ _ | EvUpdateScale k _ _ _ _ => Some k
  | _ => None
  end.

(** No request of the trace is about the kind [k]. *)
Definition no_request_on (k : Kind) (tr : list Event) : Prop :=
  Forall (fun e => event_kind e <> Some k) tr.

(** The configuration is read, there is a context, and the flags parse. *)
Definition configured (cmd : Command) : Prop :=
  snd (RawConfig cmd) = None
  /\ snd (ToRESTConfig cmd) = None
  /\ snd (GetString_context cmd) = None
  /\ noContext (fst (RawConfig cmd)) (fst (GetString_context cmd)) = false
  /\ snd (GetInt_max_wait_seconds cmd) = None.

(** The seconds slept. *)
Fixpoint sleeps (tr : list Event) : nat :=
  match tr with
  | [] => 0
  | EvSleep :: tr => S (sleeps tr)
  | _ :: tr => sleeps tr
  end.

(** The lines printed, in order. *)
Fixpoint printed (tr : list Event) : list Event :=
  match tr with
  | [] => []
  | EvPrintf format args :: tr => EvPrintf format args :: printed tr
  | EvPrintln line :: tr => EvPrintln line :: printed tr
  | _ :: tr => printed tr
  end.

(** A request is about the workload [name] of kind [k] in [namespace]. *)
Definition on_target (k : Kind) (namespace name : string) (e : Event)
  : Prop :=
  match e with
  | EvGet k' namespace' name' _
  | EvGetScale k' namespace' name' _
  | EvUpdateScale k' namespace' name' _ _ =>
      k' = k /\ namespace' = namespace /\ name' = name
  | _ => True
  end.


(** The name of a kind in [targetKind], and the other kind. *)
Definition kind_name (k : Kind) : string :=
  match k with
  | Deployments => "deployment"
  | StatefulSets => "statefulset"
  end.

Definition other_kind (k : Kind) : Kind :=
  match k with
  | Deployments => StatefulSets
  | StatefulSets => Deployments
  end.

(** What [Run] returns for what the cycle returned, the options being [o]. *)
Definition with_options {A} (o : RescaleOptions) (r : outcome A)
  : outcome (RescaleOptions * A) :=
  match r with
  | Ret a => Ret (o, a)
  | Panic p => Panic p
  end.



(** What the cluster answers to [n] requests for the scale in a row from
    the state [w], a second going by after each. *)
Fixpoint answers {W} (c : Clientset W) (k : Kind) (namespace name : string)
  (n : nat) (w : W) : list answer :=
  match n with
  | O => []
  | S n' =>
      let '(w1, a) := GetScale c k namespace name w in
      a :: answers c k namespace name n' (Sleep c w1)
  end.

(** Whether an answer shows a scale with another observed count than
    [replicas]: [mismatch], decided. *)
Definition mismatchb (replicas : Z) (a : answer) : bool :=
  match fst a with
  | Some s => negb (scale_Status_Replicas s =? replicas)
  | None => false
  end.

(** The answers up to the first that is no mismatch, that one included. *)
Fixpoint until_settled (replicas : Z) (l : list answer) : list answer :=
  match l with
  | [] => []
  | a :: l' =>
      if mismatchb replicas a then a :: until_settled replicas l' else [a]
  end.

(** ** Computations, step by step *)

#[local] Open Scope list_scope.

Lemma bind_Ret {W A B} (m : M W A) (f : A -> M W B) (w w1 : W)
  (t1 : list Event) (a : A) :
  m w = (w1, t1, Ret a) ->
  (m ≫= f) w = (final (f a w1), t1 ++ events (f a w1), result (f a w1)).
Proof.
  intros E. unfold mbind, M_bind, bind. rewrite E.
  destruct (f a w1) as [[w2 t2] r]. reflexivity.
Qed.

Lemma bind_Panic {W A B} (m : M W A) (f : A -> M W B) (w w1 : W)
  (t1 : list Event) (p : panic_value) :
  m w = (w1, t1, Panic p) -> (m ≫= f) w = (w1, t1, Panic p).
Proof. intros E. unfold mbind, M_bind, bind. rewrite E. reflexivity. Qed.

Lemma run_eta {W A} (r : W * list Event * outcome A) :
  r = (final r, events r, result r).
Proof. destruct r as [[w t] o]. reflexivity. Qed.

Section Runs.
Context {W : Type} (clientset : Clientset W).

Lemma GetWorkload_run k namespace name w :
  get_run k namespace name
    (events (GetWorkload clientset k namespace name w))
    (result (GetWorkload clientset k namespace name w)).
Proof.
  destruct k; unfold GetWorkload, GetDeployment, GetStatefulSet;
    unfold mbind, M_bind, bind, call_Get;
    (match goal with
     | |- context [Get clientset ?k' namespace name w] =>
         destruct (Get clientset k' namespace name w) as [w1 [a err]]
     end);
    (destruct err as [e|]; [| apply get_ok]);
    (destruct (IsNotFound (Some e)) eqn:Hnf; [apply get_not_found, Hnf |]);
    (destruct (asStatusError (Some e)) as [message|] eqn:Hst; cbn;
       match goal with
       | |- get_run ?k' _ _ _ _ =>
           first [ exact (get_status_error k' namespace name a e message
                            Hnf Hst)
                 | exact (get_other_error k' namespace name a e Hnf Hst) ]
       end).
Qed.

Lemma UpdateWorkloadScale_run k namespace name replicas w :
  update_run k namespace name replicas
    (events (UpdateWorkloadScale clientset k namespace name replicas w))
    (result (UpdateWorkloadScale clientset k namespace name replicas w)).
Proof.
  destruct k;
    unfold UpdateWorkloadScale, UpdateDeploymentScale, UpdateStatefulSetScale;
    unfold mbind, M_bind, bind, call_GetScale, call_UpdateScale;
    (match goal with
     | |- context [GetScale clientset ?k' namespace name w] =>
         destruct (GetScale clientset k' namespace name w) as [w1 [a err]]
     end);
    (destruct err as [e|]; [apply update_read_error |]);
    (destruct a as [s|]; [| apply update_read_nil]); cbn;
    (match goal with
     | |- context [UpdateScale clientset ?k' namespace name ?sc ?w'] =>
         destruct (UpdateScale clientset k' namespace name sc w')
           as [w2 [a' err']]
     end);
    (destruct err' as [e'|]; cbn; [apply update_refused | apply update_done]).
Qed.

Lemma WaitForReplicas_from_run k namespace name replicas tries n w :
  wait_run k namespace name replicas tries n
    (events (WaitForReplicas_from clientset k namespace name replicas tries
               n w))
    (result (WaitForReplicas_from clientset k namespace name replicas tries
               n w)).
Proof.
  revert w. induction n as [|n IH]; intros w.
  - destruct k;
      exact (wait_timeout _ _ _ _ _ 0 [] (List.Forall_nil _) eq_refl).
  - assert (Hstep :
      WaitForReplicas_from clientset k namespace name replicas tries (S n) w
      = (call_GetScale clientset k namespace name ≫= λ '(scale, _),
         deref scale ≫= λ s,
         if scale_Status_Replicas s =? replicas then ret None
         else time_Sleep clientset ;;
              WaitForReplicas_from clientset k namespace name replicas tries
                n) w) by (destruct k; reflexivity).
    rewrite Hstep. clear Hstep.
    destruct (GetScale clientset k namespace name w) as [w1 [a err]] eqn:E.
    rewrite (bind_Ret _ _ w w1 [EvGetScale k namespace name (a, err)]
               (a, err)) by (unfold call_GetScale; rewrite E; reflexivity).
    destruct a as [s|]; cbn [events result final fst snd].
    2:{ exact (wait_nil k namespace name replicas tries (S n) [] err
                 (List.Forall_nil _) (Nat.lt_0_succ n)). }
    rewrite (bind_Ret _ _ w1 w1 [] s eq_refl).
    destruct (Z.eqb_spec (scale_Status_Replicas s) replicas) as [Heq|Hne];
      cbn [events result final fst snd].
    { exact (wait_found k namespace name replicas tries (S n) [] s err
               (List.Forall_nil _) (Nat.lt_0_succ n) Heq). }
    rewrite (bind_Ret _ _ w1 (Sleep clientset w1) [EvSleep] tt eq_refl).
    cbn [events result final fst snd].
    assert (Hmis : mismatch replicas (Some s, err)) by (exists s; auto).
    specialize (IH (Sleep clientset w1)).
    inversion IH as [l s' e' Hl Hlen Hs' Ht Hr | l Hl Hlen Ht Hr
                    | l e' Hl Hlen Ht Hr].
    + exact (wait_found k namespace name replicas tries (S n)
               ((Some s, err) :: l) s' e' ltac:(constructor; assumption)
               (proj1 (Nat.succ_lt_mono _ _) Hlen) Hs').
    + subst n.
      exact (wait_timeout k namespace name replicas tries (S (length l))
               ((Some s, err) :: l) ltac:(constructor; assumption) eq_refl).
    + exact (wait_nil k namespace name replicas tries (S n)
               ((Some s, err) :: l) e' ltac:(constructor; assumption)
               (proj1 (Nat.succ_lt_mono _ _) Hlen)).
Qed.

Lemma WaitForReplicas_run k namespace name replicas tries w :
  wait_run k namespace name replicas tries (Z.to_nat tries)
    (events (WaitForReplicas clientset k namespace name replicas tries w))
    (result (WaitForReplicas clientset k namespace name replicas tries w)).
Proof.
  replace (WaitForReplicas clientset k namespace name replicas tries w)
    with (WaitForReplicas_from clientset k namespace name replicas tries
            (Z.to_nat tries) w) by (destruct k; reflexivity).
  apply WaitForReplicas_from_run.
Qed.

Lemma ScaleWorkload_cycle k namespace name maxWait w :
  ScaleWorkload clientset k namespace name maxWait w
  = ScaleCycle clientset k namespace name maxWait w.
Proof. destruct k; reflexivity. Qed.

Ltac bind_step E :=
  first [ rewrite (bind_Ret _ _ _ _ _ _ E)
        | rewrite (bind_Panic _ _ _ _ _ _ E) ];
  cbn [events result final fst snd].

Ltac pure_step :=
  match goal with
  | |- context [(deref (Some ?d) ≫= ?f) ?w] =>
      rewrite (bind_Ret (deref (Some d)) f w w [] d eq_refl)
  | |- context [(deref None ≫= ?f) ?w] =>
      rewrite (bind_Panic (deref None) f w w [] NilPointerDereference eq_refl)
  | |- context [(emit ?e ≫= ?f) ?w] =>
      rewrite (bind_Ret (emit e) f w w [e] tt eq_refl)
  end;
  cbn [events result final fst snd].

Lemma ScaleWorkload_run k namespace name maxWait w :
  cycle_run k namespace name maxWait
    (events (ScaleWorkload clientset k namespace name maxWait w))
    (result (ScaleWorkload clientset k namespace name maxWait w)).
Proof.
  rewrite ScaleWorkload_cycle. unfold ScaleCycle.
  pose proof (GetWorkload_run k namespace name w) as Hg.
  destruct (GetWorkload clientset k namespace name w) as [[w1 tg] rg] eqn:Eg.
  cbn [events result final fst snd] in Hg.
  destruct rg as [[workload [e|]]|p]; bind_step Eg.
  3:{ apply cycle_get_panic, Hg. }
  { unfold ret; cbn [events result final fst snd]. rewrite app_nil_r.
    exact (cycle_get_error _ _ _ _ _ _ _ Hg). }
  inversion Hg; subst.
  destruct workload as [d|]; pure_step.
  2:{ apply cycle_get_nil. }
  pure_step.
  pose proof (UpdateWorkloadScale_run k namespace name 0 w1) as Hu.
  destruct (UpdateWorkloadScale clientset k namespace name 0 w1)
    as [[w2 tu] ru] eqn:Eu.
  cbn [events result final fst snd] in Hu.
  destruct ru as [[x [e|]]|p]; bind_step Eu.
  3:{ exact (cycle_stop_down _ _ _ _ d tu _ p Hu eq_refl). }
  { unfold panic_Error, panic; cbn [events result final fst snd].
    rewrite app_nil_r.
    exact (cycle_stop_down _ _ _ _ d tu _ _ Hu eq_refl). }
  pose proof (WaitForReplicas_run k namespace name 0 maxWait w2) as Hw.
  destruct (WaitForReplicas clientset k namespace name 0 maxWait w2)
    as [[w3 tw] rw] eqn:Ew.
  cbn [events result final fst snd] in Hw.
  destruct rw as [[e|]|p]; bind_step Ew.
  3:{ exact (cycle_stop_wait_down _ _ _ _ d tu _ tw _ p Hu eq_refl Hw
               eq_refl). }
  { unfold panic_Error, panic; cbn [events result final fst snd].
    rewrite app_nil_r.
    exact (cycle_stop_wait_down _ _ _ _ d tu _ tw _ _ Hu eq_refl Hw
             eq_refl). }
  pure_step.
  pose proof (UpdateWorkloadScale_run k namespace name (Status_Replicas d) w3)
    as Hu'.
  destruct (UpdateWorkloadScale clientset k namespace name
              (Status_Replicas d) w3) as [[w4 tu'] ru'] eqn:Eu'.
  cbn [events result final fst snd] in Hu'.
  destruct ru' as [[x' [e|]]|p]; bind_step Eu'.
  3:{ exact (cycle_stop_up _ _ _ _ d tu _ tw _ tu' _ p Hu eq_refl Hw eq_refl
               Hu' eq_refl). }
  { unfold panic_Error, panic; cbn [events result final fst snd].
    rewrite app_nil_r.
    exact (cycle_stop_up _ _ _ _ d tu _ tw _ tu' _ _ Hu eq_refl Hw eq_refl
             Hu' eq_refl). }
  pose proof (WaitForReplicas_run k namespace name (Status_Replicas d) 60 w4)
    as Hw'.
  destruct (WaitForReplicas clientset k namespace name (Status_Replicas d)
              60 w4) as [[w5 tw'] rw'] eqn:Ew'.
  cbn [events result final fst snd] in Hw'.
  destruct rw' as [[e|]|p]; bind_step Ew'.
  3:{ exact (cycle_stop_wait_up _ _ _ _ d tu _ tw _ tu' _ tw' _ p Hu eq_refl
               Hw eq_refl Hu' eq_refl Hw' eq_refl). }
  { unfold panic_Error, panic; cbn [events result final fst snd].
    rewrite app_nil_r.
    exact (cycle_stop_wait_up _ _ _ _ d tu _ tw _ tu' _ tw' _ _ Hu eq_refl
             Hw eq_refl Hu' eq_refl Hw' eq_refl). }
  pure_step. unfold ret; cbn [events result final fst snd].
  rewrite app_nil_r.
  exact (cycle_done _ _ _ _ d tu _ tw _ tu' _ tw' _ Hu eq_refl Hw eq_refl
           Hu' eq_refl Hw' eq_refl).
Qed.

End Runs.

(** ** Traces of the runs *)

Lemma updates_app (t1 t2 : list Event) :
  updates (t1 ++ t2) = updates t1 ++ updates t2.
Proof.
  induction t1 as [|e t1 IH]; [reflexivity|].
  destruct e; cbn; rewrite IH; reflexivity.
Qed.

Lemma observations_app (t1 t2 : list Event) :
  observations (t1 ++ t2) = observations t1 ++ observations t2.
Proof.
  induction t1 as [|e t1 IH]; [reflexivity|].
  destruct e; cbn; rewrite IH; reflexivity.
Qed.

Lemma after_updates_app (n : nat) (t1 t2 : list Event) :
  updates t1 = [] ->
  after_updates (S n) (t1 ++ t2) = after_updates (S n) t2.
Proof.
  induction t1 as [|e t1 IH]; [reflexivity|].
  destruct e; cbn; intros H; try discriminate; apply IH, H.
Qed.

Lemma updates_misses k namespace name l :
  updates (misses k namespace name l) = [].
Proof. induction l as [|a l IH]; [reflexivity | exact IH]. Qed.

Lemma observations_misses k namespace name l :
  observations (misses k namespace name l) = l.
Proof.
  induction l as [|a l IH]; [reflexivity | cbn; f_equal; exact IH].
Qed.

Lemma update_run_goes k namespace name replicas tu ru :
  update_run k namespace name replicas tu ru ->
  stops snd ru = None ->
  exists s a,
    tu = [EvGetScale k namespace name (Some s, None);
          EvUpdateScale k namespace name (set_Spec_Replicas s replicas)
            (a, None)].
Proof. intros H; inversion H; subst; cbn; intros; try discriminate; eauto. Qed.

Lemma wait_run_goes k namespace name replicas tries n tw rw :
  wait_run k namespace name replicas tries n tw rw ->
  stops id rw = None ->
  exists l s e,
    Forall (mismatch replicas) l /\ (length l < n)%nat
    /\ scale_Status_Replicas s = replicas
    /\ tw = misses k namespace name l
            ++ [EvGetScale k namespace name (Some s, e)].
Proof.
  intros H; inversion H; subst; cbn; intros; try discriminate.
  eauto 8.
Qed.

Lemma wait_run_stops k namespace name replicas tries n tw rw p :
  wait_run k namespace name replicas tries n tw rw ->
  stops id rw = Some p ->
  (exists l,
     Forall (mismatch replicas) l /\ length l = n
     /\ tw = misses k namespace name l
     /\ p = PanicText (Error (WaitTimeout k namespace name replicas tries)))
  \/ (exists l e,
        Forall (mismatch replicas) l /\ (length l < n)%nat
        /\ tw = misses k namespace name l
                ++ [EvGetScale k namespace name (None, e)]
        /\ p = NilPointerDereference).
Proof.
  intros H; inversion H; subst; cbn; intros Hp; try discriminate;
    injection Hp as <-; [left | right]; eauto 8.
Qed.

Lemma update_run_ends k namespace name replicas tu ru p :
  update_run k namespace name replicas tu ru ->
  stops snd ru = Some p ->
  (exists a e, tu = [EvGetScale k namespace name (a, Some e)]
               /\ p = PanicText (Error e))
  \/ (tu = [EvGetScale k namespace name (None, None)]
      /\ p = NilPointerDereference)
  \/ (exists s a e,
        tu = [EvGetScale k namespace name (Some s, None);
              EvUpdateScale k namespace name (set_Spec_Replicas s replicas)
                (a, Some e)]
        /\ p = PanicText (Error e)).
Proof.
  intros H; inversion H; subst; cbn; intros Hp; try discriminate;
    injection Hp as <-; eauto 8.
Qed.

(** A tactic for the runs of the cycle: case analysis on how it ended, then
    on how each update and each wait of it ended. *)
Ltac cycle_cases H :=
  inversion H; subst; clear H;
  repeat match goal with
    | Hs : stops snd ?ru = None, Hu : update_run _ _ _ _ _ ?ru |- _ =>
        destruct (update_run_goes _ _ _ _ _ _ Hu Hs) as (? & ? & ->);
        clear Hu Hs
    | Hs : stops id ?rw = None, Hw : wait_run _ _ _ _ _ _ _ ?rw |- _ =>
        destruct (wait_run_goes _ _ _ _ _ _ _ _ Hw Hs)
          as (? & ? & ? & ? & ? & ? & ->);
        clear Hw Hs
    | Hs : stops snd ?ru = Some _, Hu : update_run _ _ _ _ _ ?ru |- _ =>
        destruct (update_run_ends _ _ _ _ _ _ _ Hu Hs)
          as [(? & ? & -> & ->) | [(-> & ->) | (? & ? & ? & -> & ->)]];
        clear Hu Hs
    | Hs : stops id ?rw = Some _, Hw : wait_run _ _ _ _ _ _ _ ?rw |- _ =>
        destruct (wait_run_stops _ _ _ _ _ _ _ _ _ Hw Hs)
          as [(? & ? & ? & -> & ->) | (? & ? & ? & ? & -> & ->)];
        clear Hw Hs
    end;
  try match goal with
    | Hg : get_run _ _ _ _ _ |- _ => inversion Hg; subst; clear Hg
    end.

Lemma after_updates_0 (tr : list Event) : after_updates 0 tr = tr.
Proof. destruct tr; reflexivity. Qed.

Lemma after_updates_misses n k namespace name l (tr : list Event) :
  after_updates (S n) (misses k namespace name l ++ tr)
  = after_updates (S n) tr.
Proof. apply after_updates_app, updates_misses. Qed.

Ltac trace_simpl :=
  unfold says_start, says_zero, says_done;
  repeat (progress cbn [observations updates after_updates app length head
                        last]
          || rewrite observations_app || rewrite updates_app
          || rewrite updates_misses || rewrite observations_misses
          || rewrite after_updates_0 || rewrite <- app_assoc
          || rewrite after_updates_misses
          || rewrite last_cons || rewrite last_app).

Ltac trace_simpl_in H :=
  unfold says_start, says_zero, says_done, says_get_error in H;
  repeat (progress cbn [observations updates after_updates app length head
                        last] in H
          || rewrite observations_app in H || rewrite updates_app in H
          || rewrite updates_misses in H || rewrite observations_misses in H
          || rewrite after_updates_0 in H || rewrite <- app_assoc in H
          || rewrite after_updates_misses in H).

Lemma mismatch_nil replicas e : ~ mismatch replicas (None, e).
Proof. intros (s & Hs & _). discriminate Hs. Qed.

Lemma mismatch_same s e : ~ mismatch (scale_Status_Replicas s) (Some s, e).
Proof. intros (s' & Hs & Hne). injection Hs as <-. apply Hne. reflexivity. Qed.

Lemma mismatch_last replicas (l : list answer) s e :
  Forall (mismatch replicas) l -> last l = Some (Some s, e) ->
  scale_Status_Replicas s <> replicas.
Proof.
  intros Hl Hlast.
  destruct (proj1 (Forall_forall _ _) Hl (Some s, e)) as (s' & Hs & Hne).
  - apply last_Some_elem_of, Hlast.
  - injection Hs as <-. exact Hne.
Qed.

Lemma shows_no_miss replicas (l : list answer) :
  Forall (mismatch replicas) l -> Forall (shows replicas) l -> l = [].
Proof.
  destruct l as [|a l]; [reflexivity|].
  intros Hm Hs. apply Forall_cons in Hm as [(s & Hsa & Hne) _].
  apply Forall_cons in Hs as [(s' & -> & Heq) _].
  injection Hsa as <-. contradiction.
Qed.

Lemma wait_run_polls k namespace name replicas tries n tw rw :
  wait_run k namespace name replicas tries n tw rw ->
  (length (observations tw) <= n)%nat
  /\ (rw = Ret None
      <-> exists s e, last (observations tw) = Some (Some s, e)
                      /\ scale_Status_Replicas s = replicas)
  /\ (rw = Ret (Some (WaitTimeout k namespace name replicas tries))
      <-> length (observations tw) = n
          /\ Forall (mismatch replicas) (observations tw)).
Proof.
  intros H.
  inversion H as [l s e Hl Hlen Hs | l Hl Hlen | l e Hl Hlen]; subst;
    trace_simpl; rewrite ?length_app; cbn [length].
  - split; [lia|]. split; [split; eauto|].
    split; [discriminate|]. intros (_ & Hall).
    apply Forall_app in Hall as [_ Hall].
    apply Forall_cons in Hall as [Hm _].
    destruct (mismatch_same _ _ Hm).
  - split; [lia|]. split; [|split; auto].
    split; [discriminate|]. intros (s & e & Hlast & Hs).
    destruct (mismatch_last _ _ _ _ Hl Hlast Hs).
  - split; [lia|]. split; split; try discriminate.
    + intros (s' & e' & Hlast & _). discriminate Hlast.
    + intros (_ & Hall).
      apply Forall_app in Hall as [_ Hall].
      apply Forall_cons in Hall as [Hm _].
      destruct (mismatch_nil _ _ Hm).
Qed.

Section Cycle_properties.
Context {W : Type} (clientset : Clientset W).


(** C3, amended.  When the update that scales to zero was accepted and no
    request for the scale after it showed an observed count of 0, the wait
    for 0 ran out of its [maxWait] tries and the cycle panics with the text
    of its timeout error (it does not return it).  The update that scales
    back up was never asked for: the update to zero is the only one. *)
Theorem ScaleWorkload_down_timeout k namespace name maxWait w sc a :
  let r := ScaleWorkload clientset k namespace name maxWait w in
  updates (events r) !! 0%nat = Some (sc, (a, None)) ->
  Forall (mismatch 0) (observations (after_updates 1 (events r))) ->
  result r
  = Panic (PanicText (Error (WaitTimeout k namespace name 0 maxWait)))
  /\ updates (events r) = [(sc, (a, None))]
  /\ scale_Spec_Replicas sc = 0
  /\ length (observations (after_updates 1 (events r))) = Z.to_nat maxWait.
Proof.
  intros r. subst r.
  pose proof (ScaleWorkload_run clientset k namespace name maxWait w) as H.
  destruct (ScaleWorkload clientset k namespace name maxWait w)
    as [[w' tr] res].
  cbn [events result final fst snd] in *.
  intros H1 H2.
  cycle_cases H; trace_simpl_in H1; trace_simpl_in H2;
    try discriminate H1;
    repeat match goal with
      | Hf : Forall _ (_ ++ _) |- _ =>
          apply Forall_app in Hf; destruct Hf as [? Hf]
      | Hf : Forall _ (_ :: _) |- _ =>
          apply Forall_cons in Hf; destruct Hf as [? Hf]
      | Hm : mismatch _ (None, _) |- _ => destruct (mismatch_nil _ _ Hm)
      | Hm : mismatch ?n (Some ?s, _), Hs : scale_Status_Replicas ?s = ?n
        |- _ => rewrite <- Hs in Hm; destruct (mismatch_same _ _ Hm)
      end.
  cbn in H1. injection H1 as <- <-.
  trace_simpl. auto.
Qed.

End Cycle_properties.

(** ** The waits and the errors of their polls *)

Section Wait_properties.
Context {W : Type} (clientset : Clientset W).

Lemma WaitForReplicas_from_S (c : Clientset W) k namespace name replicas
  tries n w :
  WaitForReplicas_from c k namespace name replicas tries (S n) w
  = (call_GetScale c k namespace name ≫= λ '(scale, _),
     deref scale ≫= λ s,
     if scale_Status_Replicas s =? replicas then ret None
     else time_Sleep c ;;
          WaitForReplicas_from c k namespace name replicas tries n) w.
Proof. destruct k; reflexivity. Qed.

Lemma WaitForReplicas_from_erased k namespace name replicas tries n w :
  let r := WaitForReplicas_from clientset k namespace name replicas tries
             n w in
  let r' := WaitForReplicas_from (without_GetScale_errors clientset) k
              namespace name replicas tries n w in
  result r' = result r /\ final r' = final r
  /\ map fst (observations (events r')) = map fst (observations (events r)).
Proof.
  revert w. induction n as [|n IH]; intros w.
  - destruct k; repeat split.
  - cbv zeta. rewrite !WaitForReplicas_from_S.
    destruct (GetScale clientset k namespace name w) as [w1 [a err]] eqn:E.
    rewrite (bind_Ret (call_GetScale clientset k namespace name) _ w w1
               [EvGetScale k namespace name (a, err)] (a, err))
      by (unfold call_GetScale; rewrite E; reflexivity).
    rewrite (bind_Ret
               (call_GetScale (without_GetScale_errors clientset) k
                  namespace name) _ w w1
               [EvGetScale k namespace name (a, None)] (a, None))
      by (unfold call_GetScale; cbn; rewrite E; reflexivity).
    destruct a as [s|]; cbn [events result final fst snd];
      [| repeat split].
    rewrite !(bind_Ret _ _ w1 w1 [] s eq_refl).
    destruct (scale_Status_Replicas s =? replicas);
      cbn [events result final fst snd]; [repeat split|].
    rewrite (bind_Ret (time_Sleep clientset) _ w1 (Sleep clientset w1)
               [EvSleep] tt eq_refl).
    rewrite (bind_Ret (time_Sleep (without_GetScale_errors clientset)) _ w1
               (Sleep clientset w1) [EvSleep] tt eq_refl).
    cbn [events result final fst snd app observations map].
    destruct (IH (Sleep clientset w1)) as (Hr & Hf & Ho).
    rewrite Hr, Hf, Ho. repeat split.
Qed.

(** C9, amended.  In the wait of either kind the [error] of a poll is
    dropped: the wait ends the same way, in the same state and after the
    same scales, when the client gives no error at all.  The only error the
    wait returns is its timeout, never the error of a poll.  The scale of
    every poll is read through its pointer, whatever the error: the wait
    panics on a nil pointer exactly when some poll gave no scale, and it
    panics in no other way.  So it is safe when every poll succeeds, success
    giving a scale; and a poll that fails with a scale is read as one that
    succeeds: when the first poll fails with a scale that shows the count
    waited for, the wait returns [nil] at once. *)
Theorem WaitForReplicas_drops_errors k namespace name replicas tries w :
  let r := WaitForReplicas clientset k namespace name replicas tries w in
  let r' := WaitForReplicas (without_GetScale_errors clientset) k namespace
              name replicas tries w in
  (result r' = result r /\ final r' = final r
   /\ map fst (observations (events r')) = map fst (observations (events r)))
  /\ (forall e, result r = Ret (Some e) ->
                e = WaitTimeout k namespace name replicas tries)
  /\ (result r = Panic NilPointerDereference
      <-> Exists (fun a => fst a = None) (observations (events r)))
  /\ (forall p, result r = Panic p -> p = NilPointerDereference)
  /\ ((forall a, a ∈ observations (events r) -> snd a = None ->
                 fst a <> None) ->
      Forall (fun a => snd a = None) (observations (events r)) ->
      forall p, result r <> Panic p)
  /\ (forall s e,
        0 < tries ->
        snd (GetScale clientset k namespace name w) = (Some s, Some e) ->
        scale_Status_Replicas s = replicas ->
        result r = Ret None
        /\ events r = [EvGetScale k namespace name (Some s, Some e)]).
Proof.
  cbv zeta.
  assert (Hfailed : forall s e,
    0 < tries ->
    snd (GetScale clientset k namespace name w) = (Some s, Some e) ->
    scale_Status_Replicas s = replicas ->
    result (WaitForReplicas clientset k namespace name replicas tries w)
    = Ret None
    /\ events (WaitForReplicas clientset k namespace name replicas tries w)
       = [EvGetScale k namespace name (Some s, Some e)]).
  { intros s e Hpos Hs Heq.
    replace (WaitForReplicas clientset k namespace name replicas tries w)
      with (WaitForReplicas_from clientset k namespace name replicas tries
              (Z.to_nat tries) w) by (destruct k; reflexivity).
    destruct (Z.to_nat tries) as [|n] eqn:Hn; [lia|].
    rewrite WaitForReplicas_from_S.
    destruct (GetScale clientset k namespace name w) as [w1 a] eqn:E.
    cbn [snd] in Hs. subst a.
    rewrite (bind_Ret (call_GetScale clientset k namespace name) _ w w1
               [EvGetScale k namespace name (Some s, Some e)]
               (Some s, Some e))
      by (unfold call_GetScale; rewrite E; reflexivity).
    cbn [events result final fst snd].
    rewrite (bind_Ret _ _ w1 w1 [] s eq_refl).
    rewrite (proj2 (Z.eqb_eq _ _) Heq). split; reflexivity. }
  revert Hfailed.
  replace (WaitForReplicas clientset k namespace name replicas tries w)
    with (WaitForReplicas_from clientset k namespace name replicas tries
            (Z.to_nat tries) w) by (destruct k; reflexivity).
  replace (WaitForReplicas (without_GetScale_errors clientset) k namespace
             name replicas tries w)
    with (WaitForReplicas_from (without_GetScale_errors clientset) k
            namespace name replicas tries (Z.to_nat tries) w)
    by (destruct k; reflexivity).
  intros Hfailed.
  split; [apply WaitForReplicas_from_erased|].
  cut ((forall e,
          result (WaitForReplicas_from clientset k namespace name replicas
                    tries (Z.to_nat tries) w) = Ret (Some e) ->
          e = WaitTimeout k namespace name replicas tries)
       /\ (result (WaitForReplicas_from clientset k namespace name replicas
                     tries (Z.to_nat tries) w) = Panic NilPointerDereference
           <-> Exists (fun a => fst a = None)
                 (observations
                    (events (WaitForReplicas_from clientset k namespace name
                               replicas tries (Z.to_nat tries) w))))
       /\ (forall p,
             result (WaitForReplicas_from clientset k namespace name
                       replicas tries (Z.to_nat tries) w) = Panic p ->
             p = NilPointerDereference)
       /\ ((forall a,
              a ∈ observations
                    (events (WaitForReplicas_from clientset k namespace name
                               replicas tries (Z.to_nat tries) w)) ->
              snd a = None -> fst a <> None) ->
           Forall (fun a => snd a = None)
             (observations
                (events (WaitForReplicas_from clientset k namespace name
                           replicas tries (Z.to_nat tries) w))) ->
           forall p,
             result (WaitForReplicas_from clientset k namespace name
                       replicas tries (Z.to_nat tries) w) <> Panic p)).
  { intros (H1 & H2 & H3 & H4). repeat split; try assumption;
      try apply H2; try apply (Hfailed s e); assumption. }
  clear Hfailed.
  pose proof (WaitForReplicas_from_run clientset k namespace name replicas
                tries (Z.to_nat tries) w) as H.
  destruct (WaitForReplicas_from clientset k namespace name replicas tries
              (Z.to_nat tries) w) as [[w' tr] res].
  cbn [events result final fst snd] in *.
  assert (Hsome : forall l, Forall (mismatch replicas) l ->
                            ~ Exists (fun a : answer => fst a = None) l).
  { intros l Hl Hex. apply Exists_exists in Hex as (a & Ha & Hnil).
    destruct (proj1 (Forall_forall _ _) Hl a Ha) as (s & Hs & _).
    congruence. }
  inversion H as [l s e Hl Hlen Hs | l Hl Hlen | l e Hl Hlen]; subst;
    trace_simpl.
  - (* found *)
    split; [discriminate|]. split; [|split; [discriminate|]].
    + split; [discriminate|]. intros Hex.
      apply Exists_app in Hex as [Hex|Hex]; [destruct (Hsome l Hl Hex)|].
      apply Exists_cons in Hex as [Hex|Hex]; [discriminate Hex|].
      inversion Hex.
    + intros _ _ p. discriminate.
  - (* timeout *)
    split; [intros e He; injection He as <-; reflexivity|].
    split; [|split; [discriminate|]].
    + split; [discriminate|]. intros Hex. destruct (Hsome l Hl Hex).
    + intros _ _ p. discriminate.
  - (* nil *)
    split; [discriminate|]. split; [|split].
    + split; [|reflexivity]. intros _.
      apply Exists_app. right. apply Exists_cons. left. reflexivity.
    + intros p Hp. injection Hp as <-. reflexivity.
    + intros Hconv Hall p _.
      apply Forall_app in Hall as [_ Hall].
      apply Forall_cons in Hall as [He _]. cbn in He.
      apply (Hconv (None, e)); [|exact He | reflexivity].
      apply elem_of_app. right. apply list_elem_of_here.
Qed.

End Wait_properties.

(** ** [Run]: the kind of a bare name *)

Lemma no_request_on_misses k k' namespace name l :
  k <> k' -> no_request_on k' (misses k namespace name l).
Proof.
  intros Hk. induction l as [|a l IH]; [constructor|].
  cbn. repeat constructor; [cbn; congruence | discriminate | exact IH].
Qed.

Lemma cycle_run_kind k k' namespace name maxWait tr res :
  k <> k' -> cycle_run k namespace name maxWait tr res ->
  no_request_on k' tr.
Proof.
  intros Hk H. unfold no_request_on.
  cycle_cases H;
    unfold says_start, says_zero, says_done, says_get_error;
    repeat first
      [ apply Forall_nil_2
      | apply (no_request_on_misses k k' _ _ _ Hk)
      | apply Forall_cons; split; [cbn; congruence|]
      | apply Forall_app; split ].
Qed.

Lemma events_bind {W A B} (m : M W A) (f : A -> M W B) (w : W) :
  exists t, events ((m ≫= f) w) = events (m w) ++ t.
Proof.
  destruct (m w) as [[w1 t1] [a|p]] eqn:E.
  - rewrite (bind_Ret _ _ _ _ _ _ E). eexists. reflexivity.
  - rewrite (bind_Panic _ _ _ _ _ _ E). exists []. cbn. rewrite ?app_nil_r.
    reflexivity.
Qed.

Section Run_properties.
Context {W : Type} (clientset : Clientset W).

Lemma GetWorkload_answer k namespace name w :
  GetWorkload clientset k namespace name w
  = let w1 := fst (Get clientset k namespace name w) in
    let a := fst (snd (Get clientset k namespace name w)) in
    let err := snd (snd (Get clientset k namespace name w)) in
    let asked := EvGet k namespace name (a, err) in
    if IsNotFound err then (w1, [asked], Ret (None, err))
    else match asStatusError err with
         | Some message =>
             (w1, [asked; says_get_error k namespace name message],
              Ret (None, err))
         | None =>
             match err with
             | Some e => (w1, [asked], Panic (PanicText (Error e)))
             | None => (w1, [asked], Ret (a, None))
             end
         end.
Proof.
  destruct k; unfold GetWorkload, GetDeployment, GetStatefulSet;
    unfold mbind, M_bind, bind, call_Get;
    (match goal with
     | |- context [Get clientset ?k' namespace name w] =>
         destruct (Get clientset k' namespace name w) as [w1 [a err]]
     end);
    cbn [fst snd];
    (destruct (IsNotFound err) eqn:Hnf; [reflexivity|]);
    (destruct (asStatusError err) as [message|] eqn:Hst; [reflexivity|]);
    (destruct err; reflexivity).
Qed.

Lemma Run_unknown o w namespace :
  NewForConfig clientset (restConfig o) = None ->
  Run_namespace o w = (w, [], Ret namespace) ->
  Run clientset o w
  = (Run_resolve clientset namespace o ≫= λ '(o, err),
     match err with
     | Some e => ret (o, Some e)
     | None => Run_scale clientset namespace o
     end) w.
Proof.
  intros Hnew Hns. unfold Run. rewrite Hnew.
  rewrite (bind_Ret _ _ _ _ _ _ Hns).
  cbn [app]. symmetry. apply run_eta.
Qed.

(** C8.  For a bare name (the kind is unknown) that neither the lookup of a
    deployment nor the lookup of a statefulset finds, [Run] does these two
    lookups, prints and returns the error that the name cannot be found, and
    asks for no update of a scale. *)
Theorem Run_neither_found o w namespace :
  let first := Get clientset Deployments namespace (targetName o) w in
  let second :=
    Get clientset StatefulSets namespace (targetName o) (fst first) in
  let notFoundError :=
    Errorf "deployment/statefulset %s cannot be found"
      [ArgString (targetName o)] in
  NewForConfig clientset (restConfig o) = None ->
  Run_namespace o w = (w, [], Ret namespace) ->
  targetKind o = "unknown" ->
  IsNotFound (snd (snd first)) = true ->
  IsNotFound (snd (snd second)) = true ->
  Run clientset o w
  = (fst second,
     [EvGet Deployments namespace (targetName o) (snd first);
      EvGet StatefulSets namespace (targetName o) (snd second);
      EvPrintln (Error notFoundError)],
     Ret (o, Some notFoundError))
  /\ updates (events (Run clientset o w)) = [].
Proof.
  intros first second notFoundError Hnew Hns Hkind H1 H2.
  assert (Hrun : Run clientset o w
    = (fst second,
       [EvGet Deployments namespace (targetName o) (snd first);
        EvGet StatefulSets namespace (targetName o) (snd second);
        EvPrintln (Error notFoundError)],
       Ret (o, Some notFoundError))).
  { assert (Hres : Run_resolve clientset namespace o w
      = (fst second,
         [EvGet Deployments namespace (targetName o) (snd first);
          EvGet StatefulSets namespace (targetName o) (snd second);
          EvPrintln (Error notFoundError)],
         Ret (o, Some notFoundError))).
    { unfold Run_resolve. rewrite Hkind. cbn [String.eqb Ascii.eqb Bool.eqb].
      pose proof (GetWorkload_answer Deployments namespace (targetName o) w)
        as E1.
      fold first in E1. cbv zeta in E1. rewrite H1 in E1.
      pose proof (GetWorkload_answer StatefulSets namespace (targetName o)
                    (fst first)) as E2.
      fold second in E2. cbv zeta in E2. rewrite H2 in E2.
      destruct (snd (snd first)) as [e1|] eqn:He1; [|discriminate H1].
      cbn [GetWorkload] in E1, E2.
      rewrite (bind_Ret _ _ _ _ _ _ E1). rewrite H1.
      rewrite (bind_Ret _ _ _ _ _ _ E2). rewrite H2.
      cbn [events result final fst snd app].
      rewrite (bind_Ret (Println _) _ _ _ _ tt eq_refl).
      cbn [events result final fst snd app ret].
      destruct first as [w1 [a1 err1]], second as [w2 [a2 err2]].
      cbn [fst snd] in *. subst err1. reflexivity. }
    rewrite (Run_unknown o w namespace Hnew Hns).
    rewrite (bind_Ret _ _ _ _ _ _ Hres).
    cbn [events result final fst snd app ret]. reflexivity. }
  split; [exact Hrun|]. rewrite Hrun. reflexivity.
Qed.


Lemma GetWorkload_asks_first k namespace name w :
  exists t,
    events (GetWorkload clientset k namespace name w)
    = EvGet k namespace name (snd (Get clientset k namespace name w)) :: t.
Proof.
  rewrite GetWorkload_answer. cbv zeta.
  destruct (Get clientset k namespace name w) as [w1 [a err]].
  cbn [fst snd].
  destruct (IsNotFound err); [eexists; reflexivity|].
  destruct (asStatusError err); [eexists; reflexivity|].
  destruct err; eexists; reflexivity.
Qed.

(** C2.  For a bare name (the kind is unknown), the first request of [Run]
    is the lookup of a deployment of that name.  When this lookup gives no
    error, a deployment is there: the kind becomes [deployment], [Run] goes
    on with the cycle of the deployment and asks nothing about a
    statefulset, whether one of that name exists or not.  A statefulset is
    looked up only when the lookup of the deployment answered not-found. *)
Theorem Run_deployment_first o w namespace :
  let first := Get clientset Deployments namespace (targetName o) w in
  let r := Run clientset o w in
  NewForConfig clientset (restConfig o) = None ->
  Run_namespace o w = (w, [], Ret namespace) ->
  targetKind o = "unknown" ->
  head (events r)
  = Some (EvGet Deployments namespace (targetName o) (snd first))
  /\ (snd (snd first) = None ->
      let cycle :=
        ScaleDeployment clientset namespace (targetName o)
          (maxWaitSeconds o) (fst first) in
      events r
      = EvGet Deployments namespace (targetName o) (snd first)
          :: events cycle
      /\ result r
         = match result cycle with
           | Ret err => Ret (set_targetKind "deployment" o, err)
           | Panic p => Panic p
           end
      /\ no_request_on StatefulSets (events r))
  /\ (IsNotFound (snd (snd first)) = false ->
      no_request_on StatefulSets (events r)).
Proof.
  intros first r Hnew Hns Hkind. subst r.
  rewrite (Run_unknown o w namespace Hnew Hns).
  assert (Hfound : snd (snd first) = None ->
    let cycle :=
      ScaleDeployment clientset namespace (targetName o)
        (maxWaitSeconds o) (fst first) in
    events ((Run_resolve clientset namespace o ≫= λ '(o, err),
             match err with
             | Some e => ret (o, Some e)
             | None => Run_scale clientset namespace o
             end) w)
    = EvGet Deployments namespace (targetName o) (snd first)
        :: events cycle
    /\ result ((Run_resolve clientset namespace o ≫= λ '(o, err),
                match err with
                | Some e => ret (o, Some e)
                | None => Run_scale clientset namespace o
                end) w)
       = match result cycle with
         | Ret err => Ret (set_targetKind "deployment" o, err)
         | Panic p => Panic p
         end
    /\ no_request_on StatefulSets
         (EvGet Deployments namespace (targetName o) (snd first)
            :: events cycle)).
  { intros Hnil cycle.
    assert (Hres : Run_resolve clientset namespace o w
      = (fst first,
         [EvGet Deployments namespace (targetName o) (snd first)],
         Ret (set_targetKind "deployment" o, None))).
    { unfold Run_resolve. rewrite Hkind.
      cbn [String.eqb Ascii.eqb Bool.eqb].
      pose proof (GetWorkload_answer Deployments namespace (targetName o) w)
        as E1.
      fold first in E1. cbv zeta in E1. rewrite Hnil in E1.
      cbn [IsNotFound asStatusError GetWorkload] in E1.
      rewrite (bind_Ret _ _ _ _ _ _ E1).
      cbn [events result final fst snd app ret].
      destruct first as [w1 [a1 err1]]. cbn [fst snd] in *. subst err1.
      reflexivity. }
    rewrite (bind_Ret _ _ _ _ _ _ Hres).
    unfold Run_scale. cbn [targetKind set_targetKind targetName
                           maxWaitSeconds].
    cbn [String.eqb Ascii.eqb Bool.eqb].
    fold cycle.
    pose proof (cycle_run_kind Deployments StatefulSets _ _ _ _ _
                  ltac:(discriminate)
                  (ScaleWorkload_run clientset Deployments namespace
                     (targetName o) (maxWaitSeconds o) (fst first))) as Hk.
    cbn [ScaleWorkload] in Hk. fold cycle in Hk.
    destruct cycle as [[w2 t2] [err|p]] eqn:Ec.
    - rewrite (bind_Ret _ _ _ _ _ _ Ec).
      cbn [events result final fst snd app] in *.
      destruct err; cbn [events result final fst snd app ret];
        rewrite ?app_nil_r; repeat split;
        (apply Forall_cons; split; [discriminate | exact Hk]).
    - rewrite (bind_Panic _ _ _ _ _ _ Ec).
      cbn [events result final fst snd app] in *.
      repeat split.
      apply Forall_cons; split; [discriminate | exact Hk]. }
  split; [|split].
  - destruct (events_bind (Run_resolve clientset namespace o)
                (λ '(o, err),
                   match err with
                   | Some e => ret (o, Some e)
                   | None => Run_scale clientset namespace o
                   end) w) as [t ->].
    unfold Run_resolve. rewrite Hkind. cbn [String.eqb Ascii.eqb Bool.eqb].
    match goal with
    | |- context [(?m ≫= ?f) w] =>
        destruct (events_bind m f w) as [t' ->]
    end.
    destruct (GetWorkload_asks_first Deployments namespace (targetName o) w)
      as [t'' Ht].
    cbn [GetWorkload] in Ht. rewrite Ht. reflexivity.
  - intros Hnil. destruct (Hfound Hnil) as (He & Hr & Hk).
    cbv zeta. rewrite He, Hr. repeat split. exact Hk.
  - intros Hnf.
    destruct (snd (snd first)) as [e|] eqn:Herr.
    2:{ destruct (Hfound eq_refl) as (He & _ & Hk). rewrite He. exact Hk. }
    pose proof (GetWorkload_answer Deployments namespace (targetName o) w)
      as E1.
    fold first in E1. cbv zeta in E1. rewrite Herr, Hnf in E1.
    cbn [GetWorkload] in E1.
    destruct (asStatusError (Some e)) as [message|].
    + assert (Hres : Run_resolve clientset namespace o w
        = (fst first,
           [EvGet Deployments namespace (targetName o)
              (fst (snd first), Some e);
            says_get_error Deployments namespace (targetName o) message],
           Ret (o, Some e))).
      { unfold Run_resolve. rewrite Hkind.
        cbn [String.eqb Ascii.eqb Bool.eqb].
        rewrite (bind_Ret _ _ _ _ _ _ E1). rewrite Hnf.
        cbn [events result final fst snd app ret].
        rewrite ?app_nil_r. reflexivity. }
      rewrite (bind_Ret _ _ _ _ _ _ Hres).
      cbn [events result final fst snd app ret].
      repeat (apply Forall_cons; split; [discriminate|]).
      apply Forall_nil_2.
    + assert (Hres : Run_resolve clientset namespace o w
        = (fst first,
           [EvGet Deployments namespace (targetName o)
              (fst (snd first), Some e)],
           Panic (PanicText (Error e)))).
      { unfold Run_resolve. rewrite Hkind.
        cbn [String.eqb Ascii.eqb Bool.eqb].
        rewrite (bind_Panic _ _ _ _ _ _ E1). reflexivity. }
      rewrite (bind_Panic _ _ _ _ _ _ Hres).
      cbn [events result final fst snd app ret].
      repeat (apply Forall_cons; split; [discriminate|]).
      apply Forall_nil_2.
Qed.

End Run_properties.

(** ** [Complete] and the command *)

Lemma substring_all (s : string) : substring 0 (String.length s) s = s.
Proof. induction s as [|c s IH]; [reflexivity | cbn; f_equal; exact IH]. Qed.

Lemma prefix_empty (s : string) : String.prefix "" s = true.
Proof. destruct s; reflexivity. Qed.

Lemma target_of_names (name : string) :
  target ("deploy/" +:+ name) = (name, "deployment")
  /\ target ("deployment/" +:+ name) = (name, "deployment")
  /\ target ("sts/" +:+ name) = (name, "statefulset")
  /\ target ("statefulset/" +:+ name) = (name, "statefulset").
Proof.
  unfold target, TrimPrefix, HasPrefix. cbv [String.append]. cbn.
  rewrite !Nat.sub_0_r, !substring_all, !prefix_empty. repeat split.
Qed.

Lemma Complete_configured cmd arg o :
  configured cmd ->
  0 < fst (GetInt_max_wait_seconds cmd) ->
  snd (GetString_namespace cmd) = None ->
  snd (Complete cmd [arg] o) = Ret None
  /\ targetName (fst (Complete cmd [arg] o)) = fst (target arg)
  /\ targetKind (fst (Complete cmd [arg] o)) = snd (target arg)
  /\ maxWaitSeconds (fst (Complete cmd [arg] o))
     = fst (GetInt_max_wait_seconds cmd).
Proof.
  intros (H1 & H2 & H3 & H4 & H5) Hpos H6. unfold Complete.
  rewrite H1, H2, H3. cbn [rawConfig userSpecifiedContext set_rawConfig
    set_restConfig set_userSpecifiedContext]. rewrite H4, H5.
  cbn [maxWaitSeconds set_maxWaitSeconds].
  destruct (Z.leb_spec (fst (GetInt_max_wait_seconds cmd)) 0); [lia|].
  rewrite H6. repeat split.
Qed.

Section Command_properties.
Context {W : Type} (clientset : Clientset W).

(** C7.  With the configuration read and the flags parsed, [Complete] on one
    argument returns [nil] and stores: for [deploy/foo] and
    [deployment/foo], the kind [deployment] and the name [foo]; for
    [sts/bar] and [statefulset/bar], the kind [statefulset] and the name
    [bar]; for an argument with none of the four prefixes, the kind
    [unknown] and the argument as the name. *)
Theorem Complete_target cmd o :
  configured cmd ->
  0 < fst (GetInt_max_wait_seconds cmd) ->
  snd (GetString_namespace cmd) = None ->
  let stored arg :=
    (snd (Complete cmd [arg] o),
     targetKind (fst (Complete cmd [arg] o)),
     targetName (fst (Complete cmd [arg] o))) in
  (forall foo,
     stored ("deploy/" +:+ foo) = (Ret None, "deployment", foo)
     /\ stored ("deployment/" +:+ foo) = (Ret None, "deployment", foo))
  /\ (forall bar,
        stored ("sts/" +:+ bar) = (Ret None, "statefulset", bar)
        /\ stored ("statefulset/" +:+ bar) = (Ret None, "statefulset", bar))
  /\ (forall arg,
        HasPrefix arg "deployment/" = false ->
        HasPrefix arg "deploy/" = false ->
        HasPrefix arg "statefulset/" = false ->
        HasPrefix arg "sts/" = false ->
        stored arg = (Ret None, "unknown", arg)).
Proof.
  intros Hcfg Hpos Hns stored. subst stored. cbv beta.
  split; [|split].
  - intros foo.
    destruct (target_of_names foo) as (T1 & T2 & _ & _).
    destruct (Complete_configured cmd ("deploy/" +:+ foo) o Hcfg Hpos Hns)
      as (-> & -> & -> & _).
    destruct (Complete_configured cmd ("deployment/" +:+ foo) o Hcfg Hpos
                Hns) as (-> & -> & -> & _).
    rewrite T1, T2. split; reflexivity.
  - intros bar.
    destruct (target_of_names bar) as (_ & _ & T3 & T4).
    destruct (Complete_configured cmd ("sts/" +:+ bar) o Hcfg Hpos Hns)
      as (-> & -> & -> & _).
    destruct (Complete_configured cmd ("statefulset/" +:+ bar) o Hcfg Hpos
                Hns) as (-> & -> & -> & _).
    rewrite T3, T4. split; reflexivity.
  - intros arg P1 P2 P3 P4.
    destruct (Complete_configured cmd arg o Hcfg Hpos Hns)
      as (-> & -> & -> & _).
    unfold target. rewrite P1, P2, P3, P4. reflexivity.
Qed.

(** C4.  A command whose [max-wait-seconds] is zero or negative is turned
    down before the client is used: [RunE] makes no request at all, leaves
    the cluster as it is, and does not return [nil].  With the configuration
    read and the flags parsed, what it returns is the error on the number of
    waiting seconds. *)
Theorem RunE_rejects_wait cmd args o w :
  fst (GetInt_max_wait_seconds cmd) <= 0 ->
  let r := RunE clientset cmd args o w in
  events r = [] /\ final r = w
  /\ (forall o', result r <> Ret (o', None))
  /\ (configured cmd ->
      exists o',
        result r
        = Ret (o', Some (Errorf
                 "invalid max number of waiting seconds provided" []))).
Proof.
  intros Hneg r. subst r. unfold RunE, Complete, configured.
  destruct (snd (RawConfig cmd)) as [e1|];
    [repeat split; [discriminate | intros (? & _); discriminate]|].
  destruct (snd (ToRESTConfig cmd)) as [e2|];
    [repeat split; [discriminate | intros (_ & ? & _); discriminate]|].
  destruct (snd (GetString_context cmd)) as [e3|];
    [repeat split; [discriminate | intros (_ & _ & ? & _); discriminate]|].
  cbn [rawConfig userSpecifiedContext set_rawConfig set_restConfig
       set_userSpecifiedContext].
  destruct (noContext (fst (RawConfig cmd)) (fst (GetString_context cmd)));
    [repeat split;
       [discriminate | intros (_ & _ & _ & ? & _); discriminate]|].
  destruct (snd (GetInt_max_wait_seconds cmd)) as [e5|];
    [repeat split;
       [discriminate | intros (_ & _ & _ & _ & ?); discriminate]|].
  cbn [maxWaitSeconds set_maxWaitSeconds].
  destruct (Z.leb_spec (fst (GetInt_max_wait_seconds cmd)) 0); [|lia].
  repeat split; [discriminate | intros _; eexists; reflexivity].
Qed.

End Command_properties.

(** ** The cycle, from the answers of the cluster *)

Lemma mismatchb_spec replicas (a : answer) :
  mismatchb replicas a = true <-> mismatch replicas a.
Proof.
  unfold mismatchb, mismatch. destruct a as [[s|] e]; cbn [fst].
  - rewrite negb_true_iff, Z.eqb_neq. split; [eauto|].
    intros (s' & Hs & Hne). injection Hs as <-. exact Hne.
  - split; [discriminate|]. intros (s' & Hs & _). discriminate Hs.
Qed.

Lemma until_settled_all replicas (l : list answer) :
  Forall (mismatch replicas) l -> until_settled replicas l = l.
Proof.
  induction l as [|a l IH]; [reflexivity|].
  intros Hall. apply Forall_cons in Hall as [Ha Hl].
  cbn [until_settled]. rewrite (proj2 (mismatchb_spec replicas a) Ha).
  rewrite (IH Hl). reflexivity.
Qed.

Lemma length_answers {W} (c : Clientset W) k namespace name n w :
  length (answers c k namespace name n w) = n.
Proof.
  revert w. induction n as [|n IH]; intros w; [reflexivity|].
  cbn [answers]. destruct (GetScale c k namespace name w) as [w1 a].
  cbn [length]. rewrite IH. reflexivity.
Qed.

Section Cycle_steps.
Context {W : Type} (clientset : Clientset W).

Lemma UpdateWorkloadScale_read k namespace name replicas w w1 s :
  GetScale clientset k namespace name w = (w1, (Some s, None)) ->
  let sent := set_Spec_Replicas s replicas in
  let u := UpdateScale clientset k namespace name sent w1 in
  UpdateWorkloadScale clientset k namespace name replicas w
  = (fst u,
     [EvGetScale k namespace name (Some s, None);
      EvUpdateScale k namespace name sent (snd u)],
     match snd (snd u) with
     | Some e => Ret (None, Some e)
     | None => Ret (Some sent, None)
     end).
Proof.
  intros E. cbv zeta.
  destruct k;
    unfold UpdateWorkloadScale, UpdateDeploymentScale, UpdateStatefulSetScale;
    unfold mbind, M_bind, bind, call_GetScale, call_UpdateScale;
    rewrite E; cbn;
    (match goal with
     | |- context [UpdateScale clientset ?k' namespace name ?sc ?w'] =>
         destruct (UpdateScale clientset k' namespace name sc w')
           as [w2 [a' [e'|]]]
     end); reflexivity.
Qed.

Lemma WaitForReplicas_from_step (c : Clientset W) k namespace name replicas
  tries n w :
  WaitForReplicas_from c k namespace name replicas tries (S n) w
  = let '(w1, (scale, err)) := GetScale c k namespace name w in
    let asked := EvGetScale k namespace name (scale, err) in
    match scale with
    | None => (w1, [asked], Panic NilPointerDereference)
    | Some s =>
        if scale_Status_Replicas s =? replicas then (w1, [asked], Ret None)
        else
          let rest := WaitForReplicas_from c k namespace name replicas tries
                        n (Sleep c w1) in
          (final rest, asked :: EvSleep :: events rest, result rest)
    end.
Proof.
  destruct k;
    cbn [WaitForReplicas_from WaitForDeploymentReplicas_from
           WaitForStatefulSetReplicas_from];
    unfold mbind, M_bind, bind, call_GetScale, time_Sleep;
    (match goal with
     | |- context [GetScale c ?k' namespace name w] =>
         destruct (GetScale c k' namespace name w) as [w1 [[s|] err]]
     end); cbn; try reflexivity;
    destruct (scale_Status_Replicas s =? replicas); cbn; try reflexivity;
    (match goal with
     | |- context [?f c namespace name replicas tries n ?w'] =>
         destruct (f c namespace name replicas tries n w') as [[w2 t2] r2]
     end); reflexivity.
Qed.

(** The polls of a wait are the answers of the cluster up to the first
    that is no mismatch. *)
Lemma WaitForReplicas_from_polls k namespace name replicas tries n w :
  observations
    (events (WaitForReplicas_from clientset k namespace name replicas tries
               n w))
  = until_settled replicas (answers clientset k namespace name n w).
Proof.
  revert w. induction n as [|n IH]; intros w.
  - destruct k; reflexivity.
  - rewrite WaitForReplicas_from_step. cbn [answers].
    destruct (GetScale clientset k namespace name w) as [w1 [[s|] err]];
      cbn [until_settled mismatchb fst]; [|reflexivity].
    destruct (scale_Status_Replicas s =? replicas);
      cbv zeta; cbn [negb events fst snd observations]; [reflexivity|].
    rewrite IH. reflexivity.
Qed.

Lemma WaitForReplicas_first k namespace name replicas tries w w1 s e :
  0 < tries ->
  GetScale clientset k namespace name w = (w1, (Some s, e)) ->
  scale_Status_Replicas s = replicas ->
  WaitForReplicas clientset k namespace name replicas tries w
  = (w1, [EvGetScale k namespace name (Some s, e)], Ret None).
Proof.
  intros Hpos E Hs.
  replace (WaitForReplicas clientset k namespace name replicas tries w)
    with (WaitForReplicas_from clientset k namespace name replicas tries
            (Z.to_nat tries) w) by (destruct k; reflexivity).
  destruct (Z.to_nat tries) as [|n] eqn:Hn; [lia|].
  rewrite WaitForReplicas_from_step, E.
  rewrite (proj2 (Z.eqb_eq _ _) Hs). reflexivity.
Qed.

(** The cycle once it has scaled down: the update back to the observed
    count of the start, then the wait of 60 tries for it. *)
Lemma ScaleWorkload_back k namespace name maxWait w w1 d w2 t2 x w3 t3 :
  Get clientset k namespace name w = (w1, (Some d, None)) ->
  UpdateWorkloadScale clientset k namespace name 0 w1
  = (w2, t2, Ret (x, None)) ->
  WaitForReplicas clientset k namespace name 0 maxWait w2
  = (w3, t3, Ret None) ->
  let u := UpdateWorkloadScale clientset k namespace name (Status_Replicas d)
             w3 in
  let up := WaitForReplicas clientset k namespace name (Status_Replicas d) 60
              (final u) in
  let down := EvGet k namespace name (Some d, None)
              :: says_start k namespace d
              :: t2 ++ t3 ++ [says_zero k namespace d] in
  ScaleWorkload clientset k namespace name maxWait w
  = match result u with
    | Ret (_, None) =>
        match result up with
        | Ret None =>
            (final up,
             down ++ events u ++ events up ++ [says_done k namespace d],
             Ret None)
        | Ret (Some e) =>
            (final up, down ++ events u ++ events up,
             Panic (PanicText (Error e)))
        | Panic p => (final up, down ++ events u ++ events up, Panic p)
        end
    | Ret (_, Some e) =>
        (final u, down ++ events u, Panic (PanicText (Error e)))
    | Panic p => (final u, down ++ events u, Panic p)
    end.
Proof.
  intros Eg Eu Ew. cbv zeta.
  rewrite ScaleWorkload_cycle. unfold ScaleCycle.
  assert (Eg' : GetWorkload clientset k namespace name w
                = (w1, [EvGet k namespace name (Some d, None)],
                   Ret (Some d, None)))
    by (rewrite GetWorkload_answer, Eg; reflexivity).
  rewrite (bind_Ret _ _ _ _ _ _ Eg'). cbn [events result final fst snd].
  rewrite (bind_Ret (deref (Some d)) _ w1 w1 [] d eq_refl).
  cbn [events result final fst snd].
  rewrite (bind_Ret (emit (says_start k namespace d)) _ w1 w1
             [says_start k namespace d] tt eq_refl).
  cbn [events result final fst snd].
  rewrite (bind_Ret _ _ _ _ _ _ Eu). cbn [events result final fst snd].
  rewrite (bind_Ret _ _ _ _ _ _ Ew). cbn [events result final fst snd].
  rewrite (bind_Ret (emit (says_zero k namespace d)) _ w3 w3
             [says_zero k namespace d] tt eq_refl).
  cbn [events result final fst snd].
  destruct (UpdateWorkloadScale clientset k namespace name
              (Status_Replicas d) w3) as [[w4 t4] [[x' [e|]]|p]] eqn:Eu';
    (rewrite (bind_Ret _ _ _ _ _ _ Eu')
     || rewrite (bind_Panic _ _ _ _ _ _ Eu'));
    cbn [events result final fst snd].
  3:{ f_equal. f_equal. cbn [app]. rewrite <- !app_assoc. reflexivity. }
  { unfold panic_Error, panic. cbn [events result final fst snd].
    f_equal. f_equal. cbn [app]. rewrite <- !app_assoc, ?app_nil_r.
    reflexivity. }
  destruct (WaitForReplicas clientset k namespace name (Status_Replicas d) 60
              w4) as [[w5 t5] [[e|]|p]] eqn:Ew';
    (rewrite (bind_Ret _ _ _ _ _ _ Ew')
     || rewrite (bind_Panic _ _ _ _ _ _ Ew'));
    cbn [events result final fst snd].
  3:{ f_equal. f_equal. cbn [app]. rewrite <- !app_assoc. reflexivity. }
  { unfold panic_Error, panic. cbn [events result final fst snd].
    f_equal. f_equal. cbn [app]. rewrite <- !app_assoc, ?app_nil_r.
    reflexivity. }
  rewrite (bind_Ret (emit (says_done k namespace d)) _ w5 w5
             [says_done k namespace d] tt eq_refl).
  unfold ret. cbn [events result final fst snd].
  f_equal. f_equal. cbn [app]. rewrite <- !app_assoc, ?app_nil_r.
  reflexivity.
Qed.

End Cycle_steps.

Section Cycle_on_the_cluster.
Context {W : Type} (clientset : Clientset W).

Lemma UpdateWorkloadScale_accepted k namespace name replicas w w' t x :
  UpdateWorkloadScale clientset k namespace name replicas w
  = (w', t, Ret (x, None)) ->
  exists s a,
    t = [EvGetScale k namespace name (Some s, None);
         EvUpdateScale k namespace name (set_Spec_Replicas s replicas)
           (a, None)].
Proof.
  intros E.
  pose proof (UpdateWorkloadScale_run clientset k namespace name replicas w)
    as H.
  rewrite E in H. cbn [events result final fst snd] in H.
  exact (update_run_goes _ _ _ _ _ _ H eq_refl).
Qed.

Lemma WaitForReplicas_found k namespace name replicas tries w w' t :
  WaitForReplicas clientset k namespace name replicas tries w
  = (w', t, Ret None) ->
  exists l s e,
    t = misses k namespace name l
        ++ [EvGetScale k namespace name (Some s, e)].
Proof.
  intros E.
  pose proof (WaitForReplicas_run clientset k namespace name replicas tries w)
    as H.
  rewrite E in H. cbn [events result final fst snd] in H.
  destruct (wait_run_goes _ _ _ _ _ _ _ _ H eq_refl)
    as (l & s & e & _ & _ & _ & ->).
  eauto.
Qed.

(** C5.  The count the cycle scales back to is the observed count
    ([Status.Replicas]) of the workload it fetched at the start, whatever
    the desired count ([Spec.Replicas]) of that workload.  When the fetch
    gives the workload [d], the first line printed tells its observed
    count.  When, further, the update to zero is accepted, the wait for 0
    succeeds and the cluster then gives the scale [s], the second update of
    the cycle sends [s] with the observed count of [d] as its desired count:
    the run begins with the events of these steps, that update the last of
    them. *)
Theorem ScaleWorkload_scales_back_to_observed k namespace name maxWait w w1 d
  w2 t2 x w3 t3 w4 s :
  Get clientset k namespace name w = (w1, (Some d, None)) ->
  UpdateWorkloadScale clientset k namespace name 0 w1
  = (w2, t2, Ret (x, None)) ->
  WaitForReplicas clientset k namespace name 0 maxWait w2
  = (w3, t3, Ret None) ->
  GetScale clientset k namespace name w3 = (w4, (Some s, None)) ->
  let r := ScaleWorkload clientset k namespace name maxWait w in
  let back := set_Spec_Replicas s (Status_Replicas d) in
  let accepted := snd (UpdateScale clientset k namespace name back w4) in
  events r !! 1%nat = Some (says_start k namespace d)
  /\ updates (events r) !! 1%nat = Some (back, accepted)
  /\ scale_Spec_Replicas back = Status_Replicas d
  /\ exists rest,
       events r
       = EvGet k namespace name (Some d, None)
         :: says_start k namespace d
         :: t2 ++ t3
         ++ says_zero k namespace d
         :: EvGetScale k namespace name (Some s, None)
         :: EvUpdateScale k namespace name back accepted
         :: rest.
Proof.
  intros Eg Eu Ew Es r back accepted.
  assert (Hrun : exists rest,
    events r
    = EvGet k namespace name (Some d, None)
      :: says_start k namespace d
      :: t2 ++ t3
      ++ says_zero k namespace d
      :: EvGetScale k namespace name (Some s, None)
      :: EvUpdateScale k namespace name back accepted
      :: rest).
  { subst r.
    rewrite (ScaleWorkload_back clientset k namespace name maxWait w w1 d w2
               t2 x w3 t3 Eg Eu Ew).
    cbv zeta.
    rewrite (UpdateWorkloadScale_read clientset k namespace name
               (Status_Replicas d) w3 w4 s Es).
    cbv zeta. cbn [events result final fst snd].
    fold back. fold accepted.
    destruct (snd accepted) as [e|].
    - exists []. cbn [events app]. rewrite <- !app_assoc. reflexivity.
    - destruct (result (WaitForReplicas clientset k namespace name
                          (Status_Replicas d) 60
                          (fst (UpdateScale clientset k namespace name back
                                  w4)))) as [[e|]|p];
        eexists; cbn [events app]; rewrite <- !app_assoc; reflexivity. }
  destruct Hrun as [rest Hrun].
  split; [rewrite Hrun; reflexivity|].
  split; [|split; [reflexivity | exists rest; exact Hrun]].
  rewrite Hrun.
  destruct (UpdateWorkloadScale_accepted _ _ _ _ _ _ _ _ Eu)
    as (s0 & a0 & ->).
  destruct (WaitForReplicas_found _ _ _ _ _ _ _ _ Ew) as (l & s' & e' & ->).
  unfold says_start, says_zero.
  cbn [updates app]. rewrite <- !app_assoc. rewrite updates_app.
  rewrite updates_misses. reflexivity.
Qed.

(** C6.  The wait that follows the update back up has 60 tries, whatever
    [maxWait] is.  Once the cycle has scaled down and its update back to
    the original count is accepted, in the state [w4], its polls are what
    the cluster answers from [w4] to requests a second apart, up to the
    first answer that shows the original count or no scale, and 60 at most.
    So if none of 60 answers shows the original count there are 60 polls,
    and the cycle fails with the timeout error for the original count and
    60 tries.  The cycle returns [nil] exactly when its last poll showed the
    original count, and fails with that timeout error exactly when there
    were 60 polls and none showed it. *)
Theorem ScaleWorkload_up_wait k namespace name maxWait w w1 d w2 t2 x w3 t3
  w4 t4 x' :
  Get clientset k namespace name w = (w1, (Some d, None)) ->
  UpdateWorkloadScale clientset k namespace name 0 w1
  = (w2, t2, Ret (x, None)) ->
  WaitForReplicas clientset k namespace name 0 maxWait w2
  = (w3, t3, Ret None) ->
  UpdateWorkloadScale clientset k namespace name (Status_Replicas d) w3
  = (w4, t4, Ret (x', None)) ->
  let r := ScaleWorkload clientset k namespace name maxWait w in
  let original := Status_Replicas d in
  let given := answers clientset k namespace name 60 w4 in
  let polls := observations (after_updates 2 (events r)) in
  let timeout :=
    PanicText (Error (WaitTimeout k namespace name original 60)) in
  polls = until_settled original given
  /\ (length polls <= 60)%nat
  /\ (Forall (mismatch original) given ->
      length polls = 60%nat /\ result r = Panic timeout)
  /\ (result r = Ret None
      <-> exists s e, last polls = Some (Some s, e)
                      /\ scale_Status_Replicas s = original)
  /\ (result r = Panic timeout
      <-> length polls = 60%nat /\ Forall (mismatch original) polls).
Proof.
  intros Eg Eu Ew Eu' r original given polls timeout.
  set (up := WaitForReplicas clientset k namespace name original 60 w4).
  assert (Hr : result r
               = match result up with
                 | Ret None => Ret None
                 | Ret (Some e) => Panic (PanicText (Error e))
                 | Panic p => Panic p
                 end
               /\ polls = observations (events up)).
  { subst r polls up.
    rewrite (ScaleWorkload_back clientset k namespace name maxWait w w1 d w2
               t2 x w3 t3 Eg Eu Ew).
    cbv zeta. rewrite Eu'. cbn [events result final fst snd].
    destruct (UpdateWorkloadScale_accepted _ _ _ _ _ _ _ _ Eu)
      as (s0 & a0 & ->).
    destruct (WaitForReplicas_found _ _ _ _ _ _ _ _ Ew) as (l & s' & e' & ->).
    destruct (UpdateWorkloadScale_accepted _ _ _ _ _ _ _ _ Eu')
      as (s1 & a1 & ->).
    fold original.
    destruct (WaitForReplicas clientset k namespace name original 60 w4)
      as [[w5 t5] [[e|]|p]];
      cbn [events result final fst snd]; (split; [reflexivity|]);
      trace_simpl; rewrite ?app_nil_r; reflexivity. }
  destruct Hr as [Hr Hpolls].
  assert (Hgiven : polls = until_settled original given).
  { rewrite Hpolls. subst up given.
    replace (WaitForReplicas clientset k namespace name original 60 w4)
      with (WaitForReplicas_from clientset k namespace name original 60
              60%nat w4) by (destruct k; reflexivity).
    apply WaitForReplicas_from_polls. }
  pose proof (WaitForReplicas_run clientset k namespace name original 60 w4)
    as Hup.
  fold up in Hup. change (Z.to_nat 60) with 60%nat in Hup.
  destruct (wait_run_polls _ _ _ _ _ _ _ _ Hup) as (Hlen & Hok & Hout).
  rewrite <- Hpolls in Hlen, Hok, Hout.
  assert (Hcases :
    result up = Ret None
    \/ result up = Ret (Some (WaitTimeout k namespace name original 60))
    \/ result up = Panic NilPointerDereference)
    by (inversion Hup; auto).
  assert (Htimeout : result r = Panic timeout
                     <-> length polls = 60%nat
                         /\ Forall (mismatch original) polls).
  { rewrite <- Hout, Hr. subst timeout.
    destruct Hcases as [-> | [-> | ->]]; split; intros H;
      try discriminate H; reflexivity. }
  split; [exact Hgiven|]. split; [exact Hlen|].
  split; [|split; [|exact Htimeout]].
  - intros Hall.
    assert (Hsame : polls = given)
      by (rewrite Hgiven; apply until_settled_all, Hall).
    assert (Hsixty : length polls = 60%nat)
      by (rewrite Hsame; apply length_answers).
    split; [exact Hsixty|].
    apply Htimeout. split; [exact Hsixty|]. rewrite Hsame. exact Hall.
  - rewrite <- Hok, Hr.
    destruct Hcases as [-> | [-> | ->]]; split; intros H;
      try discriminate H; reflexivity.
Qed.

(** C10.  A cycle on a workload whose observed count is 0 at the start:
    when the cluster accepts the updates and goes on showing 0 observed, the
    cycle asks for the desired count 0, its wait for 0 ends at its first
    poll, it asks for the desired count 0 again as the count to scale back
    to, its second wait ends at its first poll, and it returns [nil] with
    its line of success printed.  The last update accepted asked for 0: the
    desired count is left at 0. *)
Theorem ScaleWorkload_observed_zero k namespace name maxWait w w1 d w2 s1 w3
  a1 w4 s2 e2 w5 s3 w6 a3 w7 s4 e4 :
  0 < maxWait ->
  Get clientset k namespace name w = (w1, (Some d, None)) ->
  Status_Replicas d = 0 ->
  GetScale clientset k namespace name w1 = (w2, (Some s1, None)) ->
  UpdateScale clientset k namespace name (set_Spec_Replicas s1 0) w2
  = (w3, (a1, None)) ->
  GetScale clientset k namespace name w3 = (w4, (Some s2, e2)) ->
  scale_Status_Replicas s2 = 0 ->
  GetScale clientset k namespace name w4 = (w5, (Some s3, None)) ->
  UpdateScale clientset k namespace name (set_Spec_Replicas s3 0) w5
  = (w6, (a3, None)) ->
  GetScale clientset k namespace name w6 = (w7, (Some s4, e4)) ->
  scale_Status_Replicas s4 = 0 ->
  ScaleWorkload clientset k namespace name maxWait w
  = (w7,
     [EvGet k namespace name (Some d, None);
      says_start k namespace d;
      EvGetScale k namespace name (Some s1, None);
      EvUpdateScale k namespace name (set_Spec_Replicas s1 0) (a1, None);
      EvGetScale k namespace name (Some s2, e2);
      says_zero k namespace d;
      EvGetScale k namespace name (Some s3, None);
      EvUpdateScale k namespace name (set_Spec_Replicas s3 0) (a3, None);
      EvGetScale k namespace name (Some s4, e4);
      says_done k namespace d],
     Ret None).
Proof.
  intros Hpos Eg Hd E1 U1 E2 H2 E3 U3 E4 H4.
  assert (Eu : UpdateWorkloadScale clientset k namespace name 0 w1
               = (w3,
                  [EvGetScale k namespace name (Some s1, None);
                   EvUpdateScale k namespace name (set_Spec_Replicas s1 0)
                     (a1, None)],
                  Ret (Some (set_Spec_Replicas s1 0), None))).
  { rewrite (UpdateWorkloadScale_read clientset k namespace name 0 w1 w2 s1
               E1).
    cbv zeta. rewrite U1. reflexivity. }
  assert (Ew : WaitForReplicas clientset k namespace name 0 maxWait w3
               = (w4, [EvGetScale k namespace name (Some s2, e2)], Ret None))
    by exact (WaitForReplicas_first clientset k namespace name 0 maxWait w3
                w4 s2 e2 Hpos E2 H2).
  rewrite (ScaleWorkload_back clientset k namespace name maxWait w w1 d w3 _
             _ w4 _ Eg Eu Ew).
  cbv zeta. rewrite Hd.
  rewrite (UpdateWorkloadScale_read clientset k namespace name 0 w4 w5 s3 E3).
  cbv zeta. rewrite U3. cbn [events result final fst snd].
  rewrite (WaitForReplicas_first clientset k namespace name 0 60 w6 w7 s4 e4
             ltac:(lia) E4 H4).
  reflexivity.
Qed.

End Cycle_on_the_cluster.

(** ** Runs on the small cluster *)

Ltac all_mismatch :=
  repeat (apply Forall_cons; split;
          [eexists; split; [reflexivity | intro; discriminate] |]);
  apply Forall_nil_2.


(** C3 as stated fails: on a statefulset whose replicas never go away, the
    update to zero is accepted and none of the three polls after it shows
    0, yet no timeout error is returned to the caller of the cycle. *)
Lemma ScaleStatefulSet_timeout_not_returned :
  (exists sc a,
     updates (events (ScaleStatefulSet Sim.client "default" "mysql" 3
                        Sim.stuck_mysql)) !! 0%nat
     = Some (sc, (a, None)))
  /\ Forall (mismatch 0)
       (observations (after_updates 1
          (events (ScaleStatefulSet Sim.client "default" "mysql" 3
                     Sim.stuck_mysql))))
  /\ length (observations (after_updates 1
       (events (ScaleStatefulSet Sim.client "default" "mysql" 3
                  Sim.stuck_mysql)))) = 3%nat
  /\ forall e,
       result (ScaleStatefulSet Sim.client "default" "mysql" 3
                 Sim.stuck_mysql)
       <> Ret (Some e).
Proof.
  split; [|split; [|split]].
  - eexists _, _. vm_compute. reflexivity.
  - vm_compute. all_mismatch.
  - vm_compute. reflexivity.
  - intros e. vm_compute. discriminate.
Qed.

Lemma ScaleWorkload_down_timeout_witness :
  Forall (mismatch 0)
    (observations (after_updates 1
       (events (ScaleWorkload Sim.client Deployments "default" "nginx" 2
                  Sim.stuck))))
  /\ result (ScaleWorkload Sim.client Deployments "default" "nginx" 2
               Sim.stuck)
     = Panic (PanicText (Error
         (WaitTimeout Deployments "default" "nginx" 0 2)))
  /\ length (updates
       (events (ScaleWorkload Sim.client Deployments "default" "nginx" 2
                  Sim.stuck))) = 1%nat.
Proof.
  assert (H1 :
    updates (events (ScaleWorkload Sim.client Deployments "default" "nginx"
                       2 Sim.stuck)) !! 0%nat
    = Some ({| scale_Spec_Replicas := 0; scale_Status_Replicas := 1 |},
            (Some {| scale_Spec_Replicas := 0; scale_Status_Replicas := 1 |},
             None)))
    by (vm_compute; reflexivity).
  assert (H2 : Forall (mismatch 0)
    (observations (after_updates 1
       (events (ScaleWorkload Sim.client Deployments "default" "nginx" 2
                  Sim.stuck)))))
    by (vm_compute; all_mismatch).
  destruct (ScaleWorkload_down_timeout Sim.client Deployments "default"
              "nginx" 2 Sim.stuck _ _ H1 H2) as (Hr & Hu & _ & _).
  split; [exact H2|]. split; [exact Hr|]. rewrite Hu. reflexivity.
Defined.

(** C9 as stated fails: the wait is safe without every poll succeeding.  On
    a deployment the cluster does not have, the only poll fails, with the
    empty scale client-go gives with an error; its observed count is read
    all the same, and the wait for 0 returns [nil]. *)
Lemma WaitForDeploymentReplicas_failed_poll_safe :
  observations
    (events (WaitForDeploymentReplicas Sim.client "default" "ghost" 0 5
               Sim.nginx))
  = [(Some {| scale_Spec_Replicas := 0; scale_Status_Replicas := 0 |},
      Some Sim.notFound)]
  /\ result (WaitForDeploymentReplicas Sim.client "default" "ghost" 0 5
               Sim.nginx) = Ret None
  /\ ~ ((forall p,
           result (WaitForDeploymentReplicas Sim.client "default" "ghost" 0 5
                     Sim.nginx) <> Panic p) ->
        Forall (fun a => snd a = None)
          (observations
             (events (WaitForDeploymentReplicas Sim.client "default" "ghost"
                        0 5 Sim.nginx)))).
Proof.
  split; [vm_compute; reflexivity|]. split; [vm_compute; reflexivity|].
  intros H.
  assert (Hsafe : forall p,
    result (WaitForDeploymentReplicas Sim.client "default" "ghost" 0 5
              Sim.nginx) <> Panic p)
    by (intros p; vm_compute; discriminate).
  specialize (H Hsafe). vm_compute in H.
  apply Forall_cons in H as [H _]. discriminate H.
Qed.

Lemma ScaleWorkload_scales_back_to_observed_witness :
  (Get Sim.client Deployments "default" "nginx" Sim.rolling
   = (Sim.rolling,
      (Some {| Name := "nginx"; Spec_Replicas := Some 5;
               Status_Replicas := 3 |}, None))
   /\ updates (events (ScaleWorkload Sim.client Deployments "default" "nginx"
                        2 Sim.rolling)) !! 1%nat
      = Some ({| scale_Spec_Replicas := 3; scale_Status_Replicas := 0 |},
              (Some {| scale_Spec_Replicas := 3; scale_Status_Replicas := 0 |},
               None)))
  /\ (Get Sim.client StatefulSets "default" "mysql" Sim.rolling_mysql
      = (Sim.rolling_mysql,
         (Some {| Name := "mysql"; Spec_Replicas := Some 4;
                  Status_Replicas := 2 |}, None))
      /\ updates (events (ScaleWorkload Sim.client StatefulSets "default"
                           "mysql" 2 Sim.rolling_mysql)) !! 1%nat
         = Some ({| scale_Spec_Replicas := 2; scale_Status_Replicas := 0 |},
                 (Some {| scale_Spec_Replicas := 2;
                          scale_Status_Replicas := 0 |}, None))).
Proof.
  split.
  - assert (Eg : Get Sim.client Deployments "default" "nginx" Sim.rolling
                 = (Sim.rolling,
                    (Some {| Name := "nginx"; Spec_Replicas := Some 5;
                             Status_Replicas := 3 |}, None)))
      by (vm_compute; reflexivity).
    split; [exact Eg|].
    edestruct (ScaleWorkload_scales_back_to_observed Sim.client Deployments
                 "default" "nginx" 2 Sim.rolling)
      as (_ & Hback & _).
    + exact Eg.
    + vm_compute. reflexivity.
    + vm_compute. reflexivity.
    + vm_compute. reflexivity.
    + exact Hback.
  - assert (Eg : Get Sim.client StatefulSets "default" "mysql"
                   Sim.rolling_mysql
                 = (Sim.rolling_mysql,
                    (Some {| Name := "mysql"; Spec_Replicas := Some 4;
                             Status_Replicas := 2 |}, None)))
      by (vm_compute; reflexivity).
    split; [exact Eg|].
    edestruct (ScaleWorkload_scales_back_to_observed Sim.client StatefulSets
                 "default" "mysql" 2 Sim.rolling_mysql)
      as (_ & Hback & _).
    + exact Eg.
    + vm_compute. reflexivity.
    + vm_compute. reflexivity.
    + vm_compute. reflexivity.
    + exact Hback.
Defined.

Lemma ScaleWorkload_up_wait_witness :
  (length (observations (after_updates 2
     (events (ScaleWorkload Sim.starved Deployments "default" "nginx" 2
                Sim.nginx)))) = 60%nat
   /\ result (ScaleWorkload Sim.starved Deployments "default" "nginx" 2
                Sim.nginx)
      = Panic (PanicText (Error
          (WaitTimeout Deployments "default" "nginx" 3 60))))
  /\ (length (observations (after_updates 2
        (events (ScaleWorkload Sim.client StatefulSets "default" "mysql" 300
                   Sim.rolling_mysql)))) = 2%nat
      /\ result (ScaleWorkload Sim.client StatefulSets "default" "mysql" 300
                   Sim.rolling_mysql) = Ret None).
Proof.
  split.
  - edestruct (ScaleWorkload_up_wait Sim.starved Deployments "default"
                 "nginx" 2 Sim.nginx)
      as (_ & _ & Hall & _).
    + vm_compute. reflexivity.
    + vm_compute. reflexivity.
    + vm_compute. reflexivity.
    + vm_compute. reflexivity.
    + apply Hall. vm_compute. all_mismatch.
  - edestruct (ScaleWorkload_up_wait Sim.client StatefulSets "default"
                 "mysql" 300 Sim.rolling_mysql)
      as (Hpolls & _ & _ & Hok & _).
    + vm_compute. reflexivity.
    + vm_compute. reflexivity.
    + vm_compute. reflexivity.
    + vm_compute. reflexivity.
    + split; [rewrite Hpolls; vm_compute; reflexivity|].
      apply Hok. rewrite Hpolls. eexists _, _. vm_compute.
      split; reflexivity.
Defined.

Lemma ScaleWorkload_observed_zero_witness :
  (ScaleWorkload Sim.client Deployments "default" "nginx" 2
     Sim.pending_nginx
   = ({| Sim.deployment :=
           Some {| Sim.name := "nginx"; Sim.desired := 0; Sim.observed := 0;
                   Sim.healthy := false |};
         Sim.statefulset := None |},
      events (ScaleWorkload Sim.client Deployments "default" "nginx" 2
                Sim.pending_nginx),
      Ret None)
   /\ map (fun u => scale_Spec_Replicas (fst u))
        (updates (events (ScaleWorkload Sim.client Deployments "default"
                            "nginx" 2 Sim.pending_nginx)))
      = [0; 0])
  /\ (ScaleWorkload Sim.client StatefulSets "default" "mysql" 2 Sim.pending
      = ({| Sim.deployment := None;
            Sim.statefulset :=
              Some {| Sim.name := "mysql"; Sim.desired := 0;
                      Sim.observed := 0; Sim.healthy := false |} |},
         events (ScaleWorkload Sim.client StatefulSets "default" "mysql" 2
                   Sim.pending),
         Ret None)
      /\ map (fun u => scale_Spec_Replicas (fst u))
           (updates (events (ScaleWorkload Sim.client StatefulSets "default"
                               "mysql" 2 Sim.pending)))
         = [0; 0]).
Proof.
  split.
  - erewrite (ScaleWorkload_observed_zero Sim.client Deployments "default"
                "nginx" 2 Sim.pending_nginx).
    + split; reflexivity.
    + lia.
    + vm_compute. reflexivity.
    + reflexivity.
    + vm_compute. reflexivity.
    + vm_compute. reflexivity.
    + vm_compute. reflexivity.
    + reflexivity.
    + vm_compute. reflexivity.
    + vm_compute. reflexivity.
    + vm_compute. reflexivity.
    + reflexivity.
  - erewrite (ScaleWorkload_observed_zero Sim.client StatefulSets "default"
                "mysql" 2 Sim.pending).
    + split; reflexivity.
    + lia.
    + vm_compute. reflexivity.
    + reflexivity.
    + vm_compute. reflexivity.
    + vm_compute. reflexivity.
    + vm_compute. reflexivity.
    + reflexivity.
    + vm_compute. reflexivity.
    + vm_compute. reflexivity.
    + vm_compute. reflexivity.
    + reflexivity.
Defined.

Lemma Run_deployment_first_witness :
  targetKind (Sim.bare "web") = "unknown"
  /\ Sim.find StatefulSets "web" Sim.both <> None
  /\ head (events (Run Sim.client (Sim.bare "web") Sim.both))
     = Some (EvGet Deployments "default" "web"
               (snd (Get Sim.client Deployments "default" "web" Sim.both)))
  /\ no_request_on StatefulSets
       (events (Run Sim.client (Sim.bare "web") Sim.both)).
Proof.
  assert (Hns : Run_namespace (Sim.bare "web") Sim.both
                = (Sim.both, [], Ret "default"))
    by (vm_compute; reflexivity).
  assert (Hk : targetKind (Sim.bare "web") = "unknown")
    by (vm_compute; reflexivity).
  destruct (Run_deployment_first Sim.client (Sim.bare "web") Sim.both
              "default" eq_refl Hns Hk) as (Hfirst & Hfound & _).
  split; [exact Hk|]. split; [vm_compute; discriminate|].
  split; [exact Hfirst|].
  apply Hfound. reflexivity.
Defined.

Lemma Run_neither_found_witness :
  targetKind (Sim.bare "redis") = "unknown"
  /\ result (Run Sim.client (Sim.bare "redis") Sim.both)
     = Ret (Sim.bare "redis",
            Some (Errorf "deployment/statefulset %s cannot be found"
                    [ArgString "redis"]))
  /\ updates (events (Run Sim.client (Sim.bare "redis") Sim.both)) = [].
Proof.
  assert (Hns : Run_namespace (Sim.bare "redis") Sim.both
                = (Sim.both, [], Ret "default"))
    by (vm_compute; reflexivity).
  assert (Hk : targetKind (Sim.bare "redis") = "unknown")
    by (vm_compute; reflexivity).
  destruct (Run_neither_found Sim.client (Sim.bare "redis") Sim.both
              "default" eq_refl Hns Hk eq_refl eq_refl) as (Hrun & Hupd).
  split; [exact Hk|]. split; [|exact Hupd].
  rewrite Hrun. reflexivity.
Defined.

Lemma Complete_target_witness :
  configured (Sim.command 300)
  /\ targetKind (fst (Complete (Sim.command 300) ["sts/mysql"] Sim.fresh))
     = "statefulset"
  /\ targetName (fst (Complete (Sim.command 300) ["sts/mysql"] Sim.fresh))
     = "mysql".
Proof.
  assert (Hc : configured (Sim.command 300))
    by (repeat split; vm_compute; reflexivity).
  destruct (Complete_target (Sim.command 300) Sim.fresh Hc
              ltac:(vm_compute; reflexivity) eq_refl) as (_ & Hsts & _).
  destruct (Hsts "mysql") as (E & _).
  split; [exact Hc|].
  split; [exact (f_equal (fun x => snd (fst x)) E) | exact (f_equal snd E)].
Defined.

Lemma RunE_rejects_wait_witness :
  fst (GetInt_max_wait_seconds (Sim.command 0)) <= 0
  /\ events (RunE Sim.client (Sim.command 0) ["nginx"] Sim.fresh Sim.nginx)
     = []
  /\ exists o,
       result (RunE Sim.client (Sim.command 0) ["nginx"] Sim.fresh
                 Sim.nginx)
       = Ret (o, Some (Errorf
                "invalid max number of waiting seconds provided" [])).
Proof.
  assert (Hneg : fst (GetInt_max_wait_seconds (Sim.command 0)) <= 0)
    by (cbn; lia).
  destruct (RunE_rejects_wait Sim.client (Sim.command 0) ["nginx"] Sim.fresh
              Sim.nginx Hneg) as (Hev & _ & _ & Herr).
  split; [exact Hneg|]. split; [exact Hev|].
  apply Herr. repeat split; vm_compute; reflexivity.
Defined.

(** The cycle on [nginx] with three replicas running: an update to 0, two
    polls until 0 is observed, an update to 3, two polls until 3 is observed,
    and [nil]. *)
Example ScaleDeployment_nginx :
  result (ScaleDeployment Sim.client "default" "nginx" 300 Sim.nginx)
  = Ret None
  /\ map (fun u => scale_Spec_Replicas (fst u))
       (updates (events (ScaleDeployment Sim.client "default" "nginx" 300
                           Sim.nginx)))
     = [0; 3]
  /\ map (fun a => option_map scale_Status_Replicas (fst a))
       (observations (after_updates 1
          (events (ScaleDeployment Sim.client "default" "nginx" 300
                     Sim.nginx))))
     = [Some 3; Some 0; Some 0; Some 0; Some 3]
  /\ final (ScaleDeployment Sim.client "default" "nginx" 300 Sim.nginx)
     = Sim.nginx.
Proof. vm_compute. repeat split. Qed.

(** ** More on the waits *)

Lemma sleeps_app (t1 t2 : list Event) :
  sleeps (t1 ++ t2) = (sleeps t1 + sleeps t2)%nat.
Proof.
  induction t1 as [|e t1 IH]; [reflexivity|].
  destruct e; cbn; rewrite IH; reflexivity.
Qed.

Lemma sleeps_misses k namespace name l :
  sleeps (misses k namespace name l) = length l.
Proof.
  induction l as [|a l IH]; [reflexivity | cbn; f_equal; exact IH].
Qed.

Lemma printed_app (t1 t2 : list Event) :
  printed (t1 ++ t2) = printed t1 ++ printed t2.
Proof.
  induction t1 as [|e t1 IH]; [reflexivity|].
  destruct e; cbn; rewrite IH; reflexivity.
Qed.

Lemma printed_misses k namespace name l :
  printed (misses k namespace name l) = [].
Proof. induction l as [|a l IH]; [reflexivity | exact IH]. Qed.

Lemma on_target_misses k namespace name l :
  Forall (on_target k namespace name) (misses k namespace name l).
Proof.
  induction l as [|a l IH]; [constructor|].
  cbn. repeat constructor. exact IH.
Qed.


Section More_on_waits.
Context {W : Type} (clientset : Clientset W).


Lemma WaitForReplicas_from_more k namespace name replicas tries tries' n n' w :
  (n <= n')%nat ->
  (forall e,
     result (WaitForReplicas_from clientset k namespace name replicas tries
               n w) <> Ret (Some e)) ->
  WaitForReplicas_from clientset k namespace name replicas tries' n' w
  = WaitForReplicas_from clientset k namespace name replicas tries n w.
Proof.
  revert n' w. induction n as [|n IH]; intros n' w Hle Hno.
  - destruct k; destruct (Hno _ eq_refl).
  - destruct n' as [|n']; [lia|].
    rewrite !WaitForReplicas_from_S in *.
    destruct (GetScale clientset k namespace name w) as [w1 [a err]] eqn:E.
    assert (Ecall : call_GetScale clientset k namespace name w
                    = (w1, [EvGetScale k namespace name (a, err)],
                       Ret (a, err)))
      by (unfold call_GetScale; rewrite E; reflexivity).
    rewrite !(bind_Ret _ _ _ _ _ _ Ecall) in *.
    destruct a as [s|]; [|reflexivity].
    rewrite !(bind_Ret _ _ w1 w1 [] s eq_refl) in *.
    destruct (scale_Status_Replicas s =? replicas); [reflexivity|].
    rewrite !(bind_Ret (time_Sleep clientset) _ w1 (Sleep clientset w1)
                [EvSleep] tt eq_refl) in *.
    cbn [events result final fst snd] in *.
    rewrite (IH n' (Sleep clientset w1)); [reflexivity | lia | exact Hno].
Qed.

(** X2.  A wait that did not time out runs the same way with any larger
    number of tries: same requests, same answers, same outcome. *)
Theorem WaitForReplicas_more_tries k namespace name replicas tries tries' w :
  tries <= tries' ->
  (forall e,
     result (WaitForReplicas clientset k namespace name replicas tries w)
     <> Ret (Some e)) ->
  WaitForReplicas clientset k namespace name replicas tries' w
  = WaitForReplicas clientset k namespace name replicas tries w.
Proof.
  intros Hle Hno.
  replace (WaitForReplicas clientset k namespace name replicas tries' w)
    with (WaitForReplicas_from clientset k namespace name replicas tries'
            (Z.to_nat tries') w) by (destruct k; reflexivity).
  replace (WaitForReplicas clientset k namespace name replicas tries w)
    with (WaitForReplicas_from clientset k namespace name replicas tries
            (Z.to_nat tries) w) in * by (destruct k; reflexivity).
  apply WaitForReplicas_from_more; [lia | exact Hno].
Qed.

End More_on_waits.

(** ** More on the fetch and on the update of the scale *)

Section More_on_requests.
Context {W : Type} (clientset : Clientset W).

(** X3.  An update of the scale of either kind reads the scale first and
    sends what it read with the desired count replaced, the observed count
    kept.  It returns either the scale it sent with no error, or no scale
    with the error of the read or of the update; it panics only on a read
    that gives neither scale nor error.  It sends at most one update, and
    none when the read failed; an update that is refused was sent the scale
    read, with the desired count replaced, as one that is accepted. *)
Theorem UpdateWorkloadScale_read_modify_write k namespace name replicas w :
  let r := UpdateWorkloadScale clientset k namespace name replicas w in
  head (events r)
  = Some (EvGetScale k namespace name
            (snd (GetScale clientset k namespace name w)))
  /\ Forall (on_target k namespace name) (events r)
  /\ (length (updates (events r)) <= 1)%nat
  /\ match result r with
     | Ret (Some sent, None) =>
         exists read a,
           observations (events r) = [(Some read, None)]
           /\ updates (events r) = [(sent, (a, None))]
           /\ scale_Spec_Replicas sent = replicas
           /\ scale_Status_Replicas sent = scale_Status_Replicas read
     | Ret (None, Some e) =>
         (exists a, observations (events r) = [(a, Some e)]
                    /\ updates (events r) = [])
         \/ (exists read sent a,
               observations (events r) = [(Some read, None)]
               /\ updates (events r) = [(sent, (a, Some e))]
               /\ scale_Spec_Replicas sent = replicas
               /\ scale_Status_Replicas sent = scale_Status_Replicas read)
     | Panic p =>
         p = NilPointerDereference
         /\ observations (events r) = [(None, None)]
         /\ updates (events r) = []
     | _ => False
     end.
Proof.
  cbv zeta.
  assert (Hhead : exists t,
    events (UpdateWorkloadScale clientset k namespace name replicas w)
    = EvGetScale k namespace name
        (snd (GetScale clientset k namespace name w)) :: t).
  { destruct k;
      unfold UpdateWorkloadScale, UpdateDeploymentScale,
        UpdateStatefulSetScale;
      (match goal with
       | |- context [(?m ≫= ?f) w] =>
           destruct (events_bind m f w) as [t ->]
       end);
      unfold call_GetScale;
      (match goal with
       | |- context [GetScale clientset ?k' namespace name w] =>
           destruct (GetScale clientset k' namespace name w) as [w1 a]
       end);
      eexists; reflexivity. }
  destruct Hhead as [t Hhead]. rewrite Hhead at 1. split; [reflexivity|].
  clear t Hhead.
  pose proof (UpdateWorkloadScale_run clientset k namespace name replicas w)
    as H.
  destruct (UpdateWorkloadScale clientset k namespace name replicas w)
    as [[w' tr] res].
  cbn [events result final fst snd] in *.
  inversion H; subst; cbn [updates observations length].
  - split; [repeat constructor|]. split; [lia|]. left. eauto.
  - split; [repeat constructor|]. split; [lia|]. auto.
  - split; [repeat constructor|]. split; [lia|]. right. eauto 8.
  - split; [repeat constructor|]. split; [lia|]. eauto 8.
Qed.

(** X4.  A fetch of either kind makes one request and prints at most one
    line.  With no error from the client it returns what the client gave
    and prints nothing.
    An error it returns is a status error of the API, and comes with no
    object; it is printed unless it says not-found.  Any other error makes
    the fetch panic with the text of the error. *)
Theorem GetWorkload_outcomes k namespace name w :
  let r := GetWorkload clientset k namespace name w in
  let given := snd (Get clientset k namespace name w) in
  final r = fst (Get clientset k namespace name w)
  /\ events r = EvGet k namespace name given :: printed (events r)
  /\ (length (printed (events r)) <= 1)%nat
  /\ match result r with
     | Ret (p, None) =>
         snd given = None /\ p = fst given /\ printed (events r) = []
     | Ret (p, Some e) =>
         p = None /\ snd given = Some e
         /\ exists reason message,
              e = StatusError reason message
              /\ printed (events r)
                 = match reason with
                   | StatusReasonNotFound => []
                   | StatusReasonOther _ =>
                       [says_get_error k namespace name message]
                   end
     | Panic p =>
         exists e,
           snd given = Some e /\ p = PanicText (Error e)
           /\ (forall reason message, e <> StatusError reason message)
           /\ printed (events r) = []
     end.
Proof.
  cbv zeta. rewrite GetWorkload_answer. cbv zeta.
  destruct (Get clientset k namespace name w) as [w1 [a err]].
  cbn [fst snd].
  destruct err as [[[|reason] message | format args | message]|];
    cbn [IsNotFound asStatusError events result final fst snd printed];
    unfold says_get_error; cbn [printed length];
    repeat split; eauto 8; try lia;
    try (eexists; repeat split; congruence).
Qed.

End More_on_requests.

(** ** More on the cycle *)

Ltac effort_simpl :=
  unfold says_start, says_zero, says_done, says_get_error;
  repeat (progress cbn [observations updates after_updates sleeps printed
                        app length]
          || rewrite observations_app || rewrite updates_app
          || rewrite sleeps_app || rewrite printed_app
          || rewrite updates_misses || rewrite observations_misses
          || rewrite sleeps_misses || rewrite printed_misses
          || rewrite length_app
          || rewrite after_updates_0 || rewrite <- app_assoc
          || rewrite after_updates_misses).

Lemma cycle_run_on_target k namespace name maxWait tr res :
  cycle_run k namespace name maxWait tr res ->
  Forall (on_target k namespace name) tr.
Proof.
  intros H.
  cycle_cases H;
    unfold says_start, says_zero, says_done, says_get_error;
    repeat first
      [ apply Forall_nil_2
      | apply on_target_misses
      | apply Forall_cons; split; [cbn; auto|]
      | apply Forall_app; split ].
Qed.

Section More_on_the_cycle.
Context {W : Type} (clientset : Clientset W).

(** X5.  Every request of a cycle is about the workload the cycle was
    called for: its kind, its namespace and its name. *)
Theorem ScaleWorkload_on_target k namespace name maxWait w :
  Forall (on_target k namespace name)
    (events (ScaleWorkload clientset k namespace name maxWait w)).
Proof.
  exact (cycle_run_on_target _ _ _ _ _ _
           (ScaleWorkload_run clientset k namespace name maxWait w)).
Qed.

(** X6.  A cycle asks for at most two updates of the scale, and the first
    one asks for 0.  An update that is refused is the last one, and the
    cycle panics with the text of its error: nothing is tried again and
    nothing is undone. *)
Theorem ScaleWorkload_updates k namespace name maxWait w :
  let r := ScaleWorkload clientset k namespace name maxWait w in
  (length (updates (events r)) <= 2)%nat
  /\ (forall sc a,
        updates (events r) !! 0%nat = Some (sc, a) ->
        scale_Spec_Replicas sc = 0)
  /\ (forall i sc a e,
        updates (events r) !! i = Some (sc, (a, Some e)) ->
        length (updates (events r)) = S i
        /\ result r = Panic (PanicText (Error e))).
Proof.
  intros r. subst r.
  pose proof (ScaleWorkload_run clientset k namespace name maxWait w) as H.
  destruct (ScaleWorkload clientset k namespace name maxWait w)
    as [[w' tr] res].
  cbn [events result final fst snd] in *.
  cycle_cases H; effort_simpl;
    (split; [lia|]);
    (split;
       [intros sc' a' Hu'; cbn in Hu'; try discriminate Hu';
        injection Hu' as <- <-; reflexivity|]);
    intros [|[|i']] sc' a' e' Hu'; cbn in Hu'; try discriminate Hu';
    injection Hu' as <- <- <-; split; reflexivity.
Qed.

(** X7.  A cycle called with no time to wait (zero or negative) whose update
    to 0 is accepted stops there: it does not poll, it panics with the
    timeout of the wait for 0, and the workload is left asked for 0. *)
Theorem ScaleWorkload_no_time k namespace name maxWait w sc a :
  let r := ScaleWorkload clientset k namespace name maxWait w in
  maxWait <= 0 ->
  updates (events r) !! 0%nat = Some (sc, (a, None)) ->
  result r
  = Panic (PanicText (Error (WaitTimeout k namespace name 0 maxWait)))
  /\ updates (events r) = [(sc, (a, None))]
  /\ after_updates 1 (events r) = [].
Proof.
  intros r. subst r.
  pose proof (ScaleWorkload_run clientset k namespace name maxWait w) as H.
  destruct (ScaleWorkload clientset k namespace name maxWait w)
    as [[w' tr] res].
  cbn [events result final fst snd] in *.
  intros Hle H1.
  cycle_cases H; trace_simpl_in H1; try discriminate H1;
    try lia;
    cbn in H1; injection H1 as <- <-;
    match goal with
    | Hl : length ?l = Z.to_nat maxWait |- _ =>
        destruct l; [|cbn in Hl; lia]
    end.
  repeat split.
Qed.

(** X8.  A cycle sleeps at most [maxWait] seconds for the way down and 60
    for the way up, and makes at most that many requests for the scale
    beside the two reads of its updates. *)
Theorem ScaleWorkload_time k namespace name maxWait w :
  let r := ScaleWorkload clientset k namespace name maxWait w in
  (sleeps (events r) <= Z.to_nat maxWait + 60)%nat
  /\ (length (observations (events r)) <= Z.to_nat maxWait + 60 + 2)%nat.
Proof.
  intros r. subst r.
  pose proof (ScaleWorkload_run clientset k namespace name maxWait w) as H.
  destruct (ScaleWorkload clientset k namespace name maxWait w)
    as [[w' tr] res].
  cbn [events result final fst snd] in *.
  cycle_cases H; effort_simpl; lia.
Qed.

(** X9.  The lines a cycle prints are, in this order, the line on the count
    found, the line on 0 reached and the line on the count restored, all
    three with the name and the observed count of the workload fetched; or
    a beginning of these; or the one line on the error of the fetch.  The
    last of the three is printed exactly when the cycle returns [nil]. *)
Theorem ScaleWorkload_lines k namespace name maxWait w :
  let r := ScaleWorkload clientset k namespace name maxWait w in
  match result r with
  | Ret None =>
      exists d,
        head (events r) = Some (EvGet k namespace name (Some d, None))
        /\ printed (events r)
           = [says_start k namespace d; says_zero k namespace d;
              says_done k namespace d]
  | Ret (Some e) =>
      printed (events r) = []
      \/ exists message,
           printed (events r) = [says_get_error k namespace name message]
  | Panic _ =>
      printed (events r) = []
      \/ exists d,
           head (events r) = Some (EvGet k namespace name (Some d, None))
           /\ (printed (events r) = [says_start k namespace d]
               \/ printed (events r)
                  = [says_start k namespace d; says_zero k namespace d])
  end.
Proof.
  intros r. subst r.
  pose proof (ScaleWorkload_run clientset k namespace name maxWait w) as H.
  destruct (ScaleWorkload clientset k namespace name maxWait w)
    as [[w' tr] res].
  cbn [events result final fst snd] in *.
  cycle_cases H; effort_simpl; cbn [head]; eauto 8.
Qed.

End More_on_the_cycle.

(** ** More on [Complete] *)

Lemma prefix_append (p s : string) :
  String.prefix p s = true ->
  s = (p ++ substring (String.length p)
               (String.length s - String.length p) s)%string.
Proof.
  revert s. induction p as [|c p IH]; intros s H.
  - cbn. rewrite Nat.sub_0_r, substring_all. reflexivity.
  - destruct s as [|c' s]; [discriminate H|].
    cbn in H. destruct (Ascii.ascii_dec c c') as [<-|]; [|discriminate H].
    cbn [String.length Nat.sub substring].
    transitivity
      (String c (p ++ substring (String.length p)
                        (String.length s - String.length p) s)%string);
      [f_equal; apply IH, H | reflexivity].
Qed.

Lemma TrimPrefix_append (arg p : string) :
  HasPrefix arg p = true -> arg = (p ++ TrimPrefix arg p)%string.
Proof.
  intros H. unfold TrimPrefix. rewrite H. apply prefix_append, H.
Qed.

Lemma Complete_nil cmd args o :
  snd (Complete cmd args o) = Ret None ->
  configured cmd
  /\ 0 < fst (GetInt_max_wait_seconds cmd)
  /\ (exists arg, args = [arg])
  /\ snd (GetString_namespace cmd) = None.
Proof.
  unfold Complete, configured.
  destruct (snd (RawConfig cmd)); [discriminate|].
  destruct (snd (ToRESTConfig cmd)); [discriminate|].
  destruct (snd (GetString_context cmd)); [discriminate|].
  cbn [rawConfig userSpecifiedContext set_rawConfig set_restConfig
       set_userSpecifiedContext].
  destruct (noContext (fst (RawConfig cmd)) (fst (GetString_context cmd)));
    [discriminate|].
  destruct (snd (GetInt_max_wait_seconds cmd)); [discriminate|].
  cbn [maxWaitSeconds set_maxWaitSeconds].
  destruct (Z.leb_spec (fst (GetInt_max_wait_seconds cmd)) 0);
    [discriminate|].
  destruct args as [|arg [|arg' args]]; try discriminate.
  destruct (snd (GetString_namespace cmd)); [discriminate|].
  intros _. repeat split; eauto.
Qed.


(** X11.  When [Complete] returns [nil], the options it leaves do not depend
    on the options it was given: every field is set from the command.  The
    number of waiting seconds it stores is positive and the kind it stores
    is one of [deployment], [statefulset] and [unknown]. *)
Theorem Complete_initialises cmd args o o' :
  snd (Complete cmd args o) = Ret None ->
  Complete cmd args o' = Complete cmd args o
  /\ 0 < maxWaitSeconds (fst (Complete cmd args o))
  /\ (targetKind (fst (Complete cmd args o)) = "deployment"
      \/ targetKind (fst (Complete cmd args o)) = "statefulset"
      \/ targetKind (fst (Complete cmd args o)) = "unknown").
Proof.
  unfold Complete.
  destruct (snd (RawConfig cmd)); [discriminate|].
  destruct (snd (ToRESTConfig cmd)); [discriminate|].
  destruct (snd (GetString_context cmd)); [discriminate|].
  cbn [rawConfig userSpecifiedContext set_rawConfig set_restConfig
       set_userSpecifiedContext].
  destruct (noContext (fst (RawConfig cmd)) (fst (GetString_context cmd)));
    [discriminate|].
  destruct (snd (GetInt_max_wait_seconds cmd)); [discriminate|].
  cbn [maxWaitSeconds set_maxWaitSeconds].
  destruct (Z.leb_spec (fst (GetInt_max_wait_seconds cmd)) 0);
    [discriminate|].
  destruct args as [|arg [|arg' args]]; try discriminate.
  destruct (snd (GetString_namespace cmd)); [discriminate|].
  intros _. split; [reflexivity|]. split; [assumption|].
  cbn. unfold target.
  destruct (HasPrefix arg "deployment/"); [auto|].
  destruct (HasPrefix arg "deploy/"); [auto|].
  destruct (HasPrefix arg "statefulset/"); [auto|].
  destruct (HasPrefix arg "sts/"); auto.
Qed.

(** X12.  The name and the kind [Complete] stores give the argument back: a
    name stored with the kind [deployment] came after [deployment/] or
    [deploy/], a name stored with the kind [statefulset] came after
    [statefulset/] or [sts/], and a name stored with the kind [unknown] is
    the whole argument, which has none of these prefixes. *)
Theorem Complete_argument cmd arg o :
  snd (Complete cmd [arg] o) = Ret None ->
  let name := targetName (fst (Complete cmd [arg] o)) in
  let kind := targetKind (fst (Complete cmd [arg] o)) in
  (kind = "deployment"
   /\ (arg = ("deployment/" ++ name)%string
       \/ arg = ("deploy/" ++ name)%string))
  \/ (kind = "statefulset"
      /\ (arg = ("statefulset/" ++ name)%string
          \/ arg = ("sts/" ++ name)%string))
  \/ (kind = "unknown" /\ arg = name
      /\ HasPrefix arg "deployment/" = false
      /\ HasPrefix arg "deploy/" = false
      /\ HasPrefix arg "statefulset/" = false
      /\ HasPrefix arg "sts/" = false).
Proof.
  intros Hok.
  apply Complete_nil in Hok as (Hcfg & Hpos & _ & Hns).
  destruct (Complete_configured cmd arg o Hcfg Hpos Hns)
    as (_ & Hname & Hkind & _).
  cbv zeta. rewrite Hname, Hkind. unfold target.
  destruct (HasPrefix arg "deployment/") eqn:P1;
    [left; split; [reflexivity | left; apply TrimPrefix_append, P1]|].
  destruct (HasPrefix arg "deploy/") eqn:P2;
    [left; split; [reflexivity | right; apply TrimPrefix_append, P2]|].
  destruct (HasPrefix arg "statefulset/") eqn:P3;
    [right; left; split; [reflexivity | left; apply TrimPrefix_append, P3]|].
  destruct (HasPrefix arg "sts/") eqn:P4;
    [right; left; split; [reflexivity | right; apply TrimPrefix_append, P4]|].
  right; right. repeat split.
Qed.

(** X13.  The failures of [Complete].  It panics exactly when the kubeconfig
    is read and the REST configuration is not, with the text of that error.
    An error it returns is the error of reading the kubeconfig or a flag,
    or one of its own three: no context, no positive number of waiting
    seconds, not exactly one argument. *)
Theorem Complete_failures cmd args o :
  (forall p,
     snd (Complete cmd args o) = Panic p
     <-> snd (RawConfig cmd) = None
         /\ exists e, snd (ToRESTConfig cmd) = Some e
                      /\ p = PanicText (Error e))
  /\ (forall e,
        snd (Complete cmd args o) = Ret (Some e) ->
        snd (RawConfig cmd) = Some e
        \/ snd (GetString_context cmd) = Some e
        \/ snd (GetInt_max_wait_seconds cmd) = Some e
        \/ snd (GetString_namespace cmd) = Some e
        \/ e = errNoContext
        \/ (e = Errorf "invalid max number of waiting seconds provided" []
            /\ fst (GetInt_max_wait_seconds cmd) <= 0)
        \/ (e = Errorf
                  "either a deployment or a statefulset must be provided" []
            /\ length args <> 1%nat)).
Proof.
  unfold Complete.
  destruct (snd (RawConfig cmd)) as [e1|].
  { split.
    - intros p. split; [discriminate | intros (? & _); discriminate].
    - intros e He. injection He as <-. auto. }
  destruct (snd (ToRESTConfig cmd)) as [e2|].
  { split.
    - intros p. split.
      + intros Hp. injection Hp as <-. eauto.
      + intros (_ & e & He & ->). injection He as <-. reflexivity.
    - discriminate. }
  assert (Hnp : forall (r : outcome (option error)) p,
            (forall p', r <> Panic p') ->
            (r = Panic p
             <-> @None error = None
                 /\ exists e, @None error = Some e
                              /\ p = PanicText (Error e))).
  { intros r p Hr. split; [intros Hp; destruct (Hr _ Hp)|].
    intros (_ & e & He & _). discriminate He. }
  destruct (snd (GetString_context cmd)) as [e3|].
  { split; [intros p; apply Hnp; discriminate|].
    intros e He. injection He as <-. auto. }
  cbn [rawConfig userSpecifiedContext set_rawConfig set_restConfig
       set_userSpecifiedContext].
  destruct (noContext (fst (RawConfig cmd)) (fst (GetString_context cmd))).
  { split; [intros p; apply Hnp; discriminate|].
    intros e He. injection He as <-. auto 6. }
  destruct (snd (GetInt_max_wait_seconds cmd)) as [e5|].
  { split; [intros p; apply Hnp; discriminate|].
    intros e He. injection He as <-. auto. }
  cbn [maxWaitSeconds set_maxWaitSeconds].
  destruct (Z.leb_spec (fst (GetInt_max_wait_seconds cmd)) 0).
  { split; [intros p; apply Hnp; discriminate|].
    intros e He. injection He as <-. auto 8. }
  destruct args as [|arg [|arg' args]].
  - split; [intros p; apply Hnp; discriminate|].
    intros e He. injection He as <-. do 6 right. split; [reflexivity|].
    discriminate.
  - destruct (snd (GetString_namespace cmd)) as [e7|].
    + split; [intros p; apply Hnp; discriminate|].
      intros e He. injection He as <-. auto 6.
    + split; [intros p; apply Hnp; discriminate|]. discriminate.
  - split; [intros p; apply Hnp; discriminate|].
    intros e He. injection He as <-. do 6 right. split; [reflexivity|].
    discriminate.
Qed.

(** ** More on [Run] and on the command *)

Lemma Complete_fields cmd arg o :
  configured cmd ->
  0 < fst (GetInt_max_wait_seconds cmd) ->
  snd (GetString_namespace cmd) = None ->
  Complete cmd [arg] o
  = ({| userSpecifiedContext := fst (GetString_context cmd);
        userSpecifiedNamespace := fst (GetString_namespace cmd);
        rawConfig := fst (RawConfig cmd);
        restConfig := fst (ToRESTConfig cmd);
        targetName := fst (target arg);
        targetKind := snd (target arg);
        maxWaitSeconds := fst (GetInt_max_wait_seconds cmd) |},
     Ret None).
Proof.
  intros (H1 & H2 & H3 & H4 & H5) Hpos H6. unfold Complete.
  rewrite H1, H2, H3. cbn [rawConfig userSpecifiedContext set_rawConfig
    set_restConfig set_userSpecifiedContext]. rewrite H4, H5.
  cbn [maxWaitSeconds set_maxWaitSeconds].
  destruct (Z.leb_spec (fst (GetInt_max_wait_seconds cmd)) 0); [lia|].
  rewrite H6. reflexivity.
Qed.

Lemma cycle_run_no_println k namespace name maxWait tr res :
  cycle_run k namespace name maxWait tr res ->
  Forall (fun e => forall line, e <> EvPrintln line) tr.
Proof.
  intros H.
  assert (Hm : forall l,
    Forall (fun e => forall line, e <> EvPrintln line)
      (misses k namespace name l)).
  { induction l as [|a l IH]; [constructor|].
    cbn. repeat (constructor; [discriminate|]). exact IH. }
  cycle_cases H;
    unfold says_start, says_zero, says_done, says_get_error;
    repeat first
      [ apply Forall_nil_2
      | apply Hm
      | apply Forall_cons; split; [discriminate|]
      | apply Forall_app; split ].
Qed.

Lemma cycle_run_nil k namespace name maxWait tr :
  cycle_run k namespace name maxWait tr (Ret None) ->
  exists sc0 a0 sc1 a1 s e,
    updates tr = [(sc0, (a0, None)); (sc1, (a1, None))]
    /\ scale_Spec_Replicas sc0 = 0
    /\ last (observations tr) = Some (Some s, e)
    /\ scale_Status_Replicas s = scale_Spec_Replicas sc1.
Proof.
  intros H. cycle_cases H. trace_simpl.
  eexists _, _, _, _, _, _. repeat split. cbn. assumption.
Qed.

Section More_on_Run.
Context {W : Type} (clientset : Clientset W).

Lemma RunE_Run cmd args o o1 w :
  Complete cmd args o = (o1, Ret None) ->
  RunE clientset cmd args o w = Run clientset o1 w.
Proof.
  intros H. unfold RunE. rewrite H.
  destruct (Run clientset o1 w) as [[w2 t2] [[o2 err]|p]] eqn:E.
  - rewrite (bind_Ret _ _ _ _ _ _ E).
    destruct err; cbn; rewrite app_nil_r; reflexivity.
  - rewrite (bind_Panic _ _ _ _ _ _ E). reflexivity.
Qed.

Lemma Run_steps o w namespace :
  NewForConfig clientset (restConfig o) = None ->
  Run_namespace o w = (w, [], Ret namespace) ->
  let res := Run_resolve clientset namespace o w in
  Run clientset o w
  = match result res with
    | Ret (o2, None) =>
        let sc := Run_scale clientset namespace o2 (final res) in
        (final sc, events res ++ events sc, result sc)
    | Ret (o2, Some e) => (final res, events res, Ret (o2, Some e))
    | Panic p => (final res, events res, Panic p)
    end.
Proof.
  intros Hnew Hns. cbv zeta. rewrite (Run_unknown clientset o w namespace Hnew Hns).
  destruct (Run_resolve clientset namespace o w) as [[w1 t1] [[o2 err]|p]] eqn:E.
  - rewrite (bind_Ret _ _ _ _ _ _ E). cbn [events result final fst snd].
    destruct err; [cbn; rewrite app_nil_r|]; reflexivity.
  - rewrite (bind_Panic _ _ _ _ _ _ E). reflexivity.
Qed.

Lemma Run_scale_kind k namespace o w :
  targetKind o = kind_name k ->
  let cycle :=
    ScaleWorkload clientset k namespace (targetName o) (maxWaitSeconds o) w in
  Run_scale clientset namespace o w
  = (final cycle, events cycle, with_options o (result cycle)).
Proof.
  intros Hk. cbv zeta. unfold Run_scale. rewrite Hk.
  destruct k; cbn [kind_name ScaleWorkload];
    cbn [String.eqb Ascii.eqb Bool.eqb];
    match goal with
    | |- context [(?m ≫= _) w] =>
        destruct (m w) as [[w2 t2] [err|p]] eqn:E
    end;
    (rewrite (bind_Ret _ _ _ _ _ _ E) || rewrite (bind_Panic _ _ _ _ _ _ E));
    try destruct err; cbn; rewrite ?app_nil_r; reflexivity.
Qed.

Lemma Run_scale_other namespace o w :
  targetKind o <> "deployment" -> targetKind o <> "statefulset" ->
  Run_scale clientset namespace o w
  = (w,
     [EvPrintln (Error (Errorf "unknown target kind %s"
                          [ArgString (targetKind o)]))],
     Ret (o, Some (Errorf "unknown target kind %s"
                     [ArgString (targetKind o)]))).
Proof.
  intros H1 H2. unfold Run_scale.
  destruct (String.eqb_spec (targetKind o) "deployment"); [contradiction|].
  destruct (String.eqb_spec (targetKind o) "statefulset"); [contradiction|].
  reflexivity.
Qed.

Lemma Run_resolve_known namespace o w :
  targetKind o <> "unknown" ->
  Run_resolve clientset namespace o w = (w, [], Ret (o, None)).
Proof.
  intros H. unfold Run_resolve.
  destruct (String.eqb_spec (targetKind o) "unknown"); [contradiction|].
  reflexivity.
Qed.

Lemma Run_resolve_unknown namespace o w :
  targetKind o = "unknown" ->
  let notFoundError :=
    Errorf "deployment/statefulset %s cannot be found"
      [ArgString (targetName o)] in
  let g1 := GetDeployment clientset namespace (targetName o) w in
  let g2 := GetStatefulSet clientset namespace (targetName o) (final g1) in
  Run_resolve clientset namespace o w
  = match result g1 with
    | Panic p => (final g1, events g1, Panic p)
    | Ret (_, None) =>
        (final g1, events g1, Ret (set_targetKind "deployment" o, None))
    | Ret (_, Some e) =>
        if IsNotFound (Some e) then
          match result g2 with
          | Panic p => (final g2, events g1 ++ events g2, Panic p)
          | Ret (_, err2) =>
              if IsNotFound err2 then
                (final g2,
                 events g1 ++ events g2 ++ [EvPrintln (Error notFoundError)],
                 Ret (o, Some notFoundError))
              else
                match err2 with
                | Some e2 =>
                    (final g2, events g1 ++ events g2, Ret (o, Some e2))
                | None =>
                    (final g2, events g1 ++ events g2,
                     Ret (set_targetKind "statefulset" o, None))
                end
          end
        else (final g1, events g1, Ret (o, Some e))
    end.
Proof.
  intros Hk. cbv zeta. unfold Run_resolve. rewrite Hk.
  cbn [String.eqb Ascii.eqb Bool.eqb].
  destruct (GetDeployment clientset namespace (targetName o) w)
    as [[w1 t1] [[p1 [e1|]]|pv1]] eqn:E1;
    (rewrite (bind_Ret _ _ _ _ _ _ E1) || rewrite (bind_Panic _ _ _ _ _ _ E1));
    cbn [events result final fst snd]; try reflexivity.
  2:{ cbn. rewrite app_nil_r. reflexivity. }
  destruct (IsNotFound (Some e1)).
  2:{ cbn. rewrite app_nil_r. reflexivity. }
  destruct (GetStatefulSet clientset namespace (targetName o) w1)
    as [[w2 t2] [[p2 err2]|pv2]] eqn:E2;
    (rewrite (bind_Ret _ _ _ _ _ _ E2) || rewrite (bind_Panic _ _ _ _ _ _ E2));
    cbn [events result final fst snd]; try reflexivity.
  destruct (IsNotFound err2).
  - rewrite (bind_Ret (Println _) _ _ _ _ tt eq_refl). cbn.
    reflexivity.
  - destruct err2; cbn; rewrite app_nil_r; reflexivity.
Qed.

(** X14.  Whenever [Complete] does not return [nil], [RunE] stops there: no
    request is made, the cluster is left as it is, and [RunE] does not
    return [nil]. *)
Theorem RunE_validates_first cmd args o w :
  snd (Complete cmd args o) <> Ret None ->
  events (RunE clientset cmd args o w) = []
  /\ final (RunE clientset cmd args o w) = w
  /\ forall o', result (RunE clientset cmd args o w) <> Ret (o', None).
Proof.
  unfold RunE. destruct (Complete cmd args o) as [o1 [[e|]|p]];
    cbn [snd]; intros H; [| destruct (H eq_refl) |];
    repeat split; discriminate.
Qed.

(** X16.  With the kind given in the argument, [Run] asks nothing to find
    the workload: it runs the cycle of that kind and returns what the cycle
    returns, with the options unchanged.  It makes no request about the
    other kind. *)
Theorem Run_given_kind k o w namespace :
  let cycle :=
    ScaleWorkload clientset k namespace (targetName o) (maxWaitSeconds o) w in
  NewForConfig clientset (restConfig o) = None ->
  Run_namespace o w = (w, [], Ret namespace) ->
  targetKind o = kind_name k ->
  Run clientset o w = (final cycle, events cycle, with_options o (result cycle))
  /\ no_request_on (other_kind k) (events (Run clientset o w)).
Proof.
  intros cycle Hnew Hns Hk.
  assert (Hrun : Run clientset o w
                 = (final cycle, events cycle, with_options o (result cycle))).
  { rewrite (Run_steps o w namespace Hnew Hns). cbv zeta.
    rewrite Run_resolve_known by (rewrite Hk; destruct k; discriminate).
    cbn [events result final fst snd app].
    rewrite (Run_scale_kind k namespace o w Hk). reflexivity. }
  split; [exact Hrun|]. rewrite Hrun. cbn [events fst snd].
  apply (cycle_run_kind k (other_kind k) namespace (targetName o)
           (maxWaitSeconds o) _ (result cycle));
    [destruct k; discriminate|].
  apply ScaleWorkload_run.
Qed.

(** X17.  For a bare name that the lookup of a deployment does not find and
    the lookup of a statefulset finds, the kind becomes [statefulset]:
    after the two lookups [Run] runs the cycle of the statefulset and
    returns what it returns. *)
Theorem Run_statefulset_fallback o w namespace :
  let first := Get clientset Deployments namespace (targetName o) w in
  let second :=
    Get clientset StatefulSets namespace (targetName o) (fst first) in
  let cycle :=
    ScaleStatefulSet clientset namespace (targetName o) (maxWaitSeconds o)
      (fst second) in
  NewForConfig clientset (restConfig o) = None ->
  Run_namespace o w = (w, [], Ret namespace) ->
  targetKind o = "unknown" ->
  IsNotFound (snd (snd first)) = true ->
  snd (snd second) = None ->
  Run clientset o w
  = (final cycle,
     EvGet Deployments namespace (targetName o) (snd first)
       :: EvGet StatefulSets namespace (targetName o) (snd second)
       :: events cycle,
     with_options (set_targetKind "statefulset" o) (result cycle)).
Proof.
  intros first second cycle Hnew Hns Hk H1 H2.
  rewrite (Run_steps o w namespace Hnew Hns). cbv zeta.
  rewrite (Run_resolve_unknown namespace o w Hk). cbv zeta.
  pose proof (GetWorkload_answer clientset Deployments namespace
                (targetName o) w) as E1.
  cbn [GetWorkload] in E1. fold first in E1. cbv zeta in E1.
  rewrite H1 in E1. rewrite E1. cbn [events result final fst snd].
  destruct (snd (snd first)) as [e1|] eqn:He1; [|discriminate H1].
  rewrite H1.
  pose proof (GetWorkload_answer clientset StatefulSets namespace
                (targetName o) (fst first)) as E2.
  cbn [GetWorkload] in E2. fold second in E2. cbv zeta in E2.
  rewrite H2 in E2. cbn [IsNotFound asStatusError] in E2. rewrite E2.
  cbn [events result final fst snd IsNotFound].
  rewrite (Run_scale_kind StatefulSets namespace
             (set_targetKind "statefulset" o) (fst second) eq_refl).
  cbn [ScaleWorkload targetName maxWaitSeconds set_targetKind].
  fold cycle. cbn [events result final fst snd app].
  destruct first as [w1 [a1 err1]], second as [w2 [a2 err2]].
  cbn [fst snd] in *. subst. reflexivity.
Qed.


Lemma GetWorkload_result k namespace name w :
  let g := GetWorkload clientset k namespace name w in
  let given := snd (Get clientset k namespace name w) in
  final g = fst (Get clientset k namespace name w)
  /\ updates (events g) = []
  /\ observations (events g) = []
  /\ Forall (fun e => forall line, e <> EvPrintln line) (events g)
  /\ (forall p err, result g = Ret (p, err) -> snd given = err)
  /\ (forall p, result g = Panic p -> IsNotFound (snd given) = false).
Proof.
  cbv zeta. rewrite GetWorkload_answer. cbv zeta.
  destruct (Get clientset k namespace name w) as [w1 [a err]].
  cbn [fst snd].
  destruct err as [[[|reason] message | format args | message]|];
    cbn [IsNotFound asStatusError events result final fst snd];
    unfold says_get_error; cbn [updates observations];
    repeat split; try discriminate; try congruence;
    repeat (apply Forall_cons; split; [discriminate|]); apply Forall_nil_2.
Qed.

Lemma Run_namespace_pure o w :
  exists r, Run_namespace (W := W) o w = (w, [], r).
Proof.
  unfold Run_namespace.
  destruct (0 <? len (userSpecifiedNamespace o)); [eexists; reflexivity|].
  match goal with
  | |- context [deref ?p] => destruct p
  end; eexists; reflexivity.
Qed.

(** X18.  For a bare name, [Run] asks for an update of a scale only when one
    of its two lookups found the workload: the lookup of a deployment gave
    no error, or it answered not-found and the lookup of a statefulset gave
    no error. *)
Theorem Run_updates_only_if_found o w namespace :
  let first := Get clientset Deployments namespace (targetName o) w in
  let second :=
    Get clientset StatefulSets namespace (targetName o) (fst first) in
  NewForConfig clientset (restConfig o) = None ->
  Run_namespace o w = (w, [], Ret namespace) ->
  targetKind o = "unknown" ->
  updates (events (Run clientset o w)) <> [] ->
  snd (snd first) = None
  \/ (IsNotFound (snd (snd first)) = true /\ snd (snd second) = None).
Proof.
  intros first second Hnew Hns Hk.
  rewrite (Run_steps o w namespace Hnew Hns). cbv zeta.
  rewrite (Run_resolve_unknown namespace o w Hk). cbv zeta.
  destruct (GetWorkload_result Deployments namespace (targetName o) w)
    as (Hf1 & Hu1 & _ & _ & Hr1 & _).
  cbn [GetWorkload] in *. fold first in Hf1, Hr1.
  destruct (GetDeployment clientset namespace (targetName o) w)
    as [[w1 t1] [[p1 [e1|]]|pv1]];
    cbn [events result final fst snd] in *.
  3:{ intros Hupd. destruct (Hupd Hu1). }
  2:{ intros _. left. exact (Hr1 _ _ eq_refl). }
  rewrite (Hr1 _ _ eq_refl).
  destruct (IsNotFound (Some e1)).
  2:{ cbn [events result final fst snd]. intros Hupd. destruct (Hupd Hu1). }
  subst w1.
  destruct (GetWorkload_result StatefulSets namespace (targetName o)
              (fst first)) as (_ & Hu2 & _ & _ & Hr2 & _).
  cbn [GetWorkload] in *. fold second in Hr2.
  destruct (GetStatefulSet clientset namespace (targetName o) (fst first))
    as [[w2 t2] [[p2 err2]|pv2]];
    cbn [events result final fst snd] in *.
  2:{ rewrite updates_app, Hu1, Hu2. intros Hupd. destruct (Hupd eq_refl). }
  destruct (IsNotFound err2).
  { cbn [events result final fst snd].
    rewrite !updates_app, Hu1, Hu2. intros Hupd. destruct (Hupd eq_refl). }
  destruct err2 as [e2|].
  { cbn [events result final fst snd].
    rewrite !updates_app, Hu1, Hu2. intros Hupd. destruct (Hupd eq_refl). }
  intros _. right. split; [reflexivity | exact (Hr2 _ _ eq_refl)].
Qed.

Lemma Run_never_unknown_kind o w :
  targetKind o = "unknown" \/ (exists k, targetKind o = kind_name k) ->
  Forall (fun e => forall kind,
            e <> EvPrintln (Error (Errorf "unknown target kind %s"
                                     [ArgString kind])))
    (events (Run clientset o w)).
Proof.
  intros Hkind.
  assert (Hweak : forall tr,
    Forall (fun e => forall line, e <> EvPrintln line) tr ->
    Forall (fun e => forall kind,
              e <> EvPrintln (Error (Errorf "unknown target kind %s"
                                       [ArgString kind]))) tr).
  { intros tr Htr. eapply Forall_impl; [exact Htr|].
    intros e He kind. apply He. }
  assert (Hcycle : forall k o2 w2 namespace,
    targetKind o2 = kind_name k ->
    Forall (fun e => forall kind,
              e <> EvPrintln (Error (Errorf "unknown target kind %s"
                                       [ArgString kind])))
      (events (Run_scale clientset namespace o2 w2))).
  { intros k o2 w2 namespace Hk2.
    rewrite (Run_scale_kind k namespace o2 w2 Hk2). cbn [events fst snd].
    apply Hweak.
    apply (cycle_run_no_println k namespace (targetName o2)
             (maxWaitSeconds o2) _ _ (ScaleWorkload_run _ _ _ _ _ _)). }
  destruct (NewForConfig clientset (restConfig o)) eqn:Hnew.
  { unfold Run. rewrite Hnew. apply Forall_nil_2. }
  destruct (Run_namespace_pure o w) as [[namespace|p] Hns].
  2:{ unfold Run. rewrite Hnew. rewrite (bind_Panic _ _ _ _ _ _ Hns).
      apply Forall_nil_2. }
  rewrite (Run_steps o w namespace Hnew Hns). cbv zeta.
  destruct Hkind as [Hk | [k Hk]].
  2:{ rewrite Run_resolve_known by (rewrite Hk; destruct k; discriminate).
      cbn [events result final fst snd app]. apply (Hcycle k), Hk. }
  rewrite (Run_resolve_unknown namespace o w Hk). cbv zeta.
  destruct (GetWorkload_result Deployments namespace (targetName o) w)
    as (_ & _ & _ & Hp1 & _ & _).
  cbn [GetWorkload] in Hp1. apply Hweak in Hp1.
  destruct (GetDeployment clientset namespace (targetName o) w)
    as [[w1 t1] [[p1 [e1|]]|pv1]];
    cbn [events result final fst snd] in *; [| | exact Hp1].
  2:{ apply Forall_app; split; [exact Hp1|].
      apply (Hcycle Deployments). reflexivity. }
  destruct (IsNotFound (Some e1)); [|exact Hp1].
  destruct (GetWorkload_result StatefulSets namespace (targetName o) w1)
    as (_ & _ & _ & Hp2 & _ & _).
  cbn [GetWorkload] in Hp2. apply Hweak in Hp2.
  destruct (GetStatefulSet clientset namespace (targetName o) w1)
    as [[w2 t2] [[p2 err2]|pv2]];
    cbn [events result final fst snd] in *.
  2:{ apply Forall_app; split; assumption. }
  destruct (IsNotFound err2).
  { cbn [events result final fst snd].
    repeat (apply Forall_app; split; try assumption).
    apply Forall_cons; split; [intros kind; discriminate | apply Forall_nil_2]. }
  destruct err2 as [e2|]; cbn [events result final fst snd].
  { apply Forall_app; split; assumption. }
  repeat (apply Forall_app; split; try assumption).
  apply (Hcycle StatefulSets). reflexivity.
Qed.

(** X19.  [Run] has an answer for a kind that is none of [deployment],
    [statefulset] and [unknown]: it prints and returns the error of an
    unknown target kind, and makes no request.  The command never gets
    there: [RunE] never prints that line, because [Complete] stores one of
    the three kinds. *)
Theorem RunE_kind_is_known cmd args o w :
  Forall (fun e => forall kind,
            e <> EvPrintln (Error (Errorf "unknown target kind %s"
                                     [ArgString kind])))
    (events (RunE clientset cmd args o w))
  /\ (forall o1 namespace,
        NewForConfig clientset (restConfig o1) = None ->
        Run_namespace o1 w = (w, [], Ret namespace) ->
        targetKind o1 <> "deployment" ->
        targetKind o1 <> "statefulset" ->
        targetKind o1 <> "unknown" ->
        Run clientset o1 w
        = (w,
           [EvPrintln (Error (Errorf "unknown target kind %s"
                                [ArgString (targetKind o1)]))],
           Ret (o1, Some (Errorf "unknown target kind %s"
                            [ArgString (targetKind o1)])))).
Proof.
  split.
  - destruct (Complete cmd args o) as [o1 [[e|]|p]] eqn:Hc.
    + unfold RunE. rewrite Hc. apply Forall_nil_2.
    + rewrite (RunE_Run cmd args o o1 w Hc).
      apply Run_never_unknown_kind.
      assert (Hok : snd (Complete cmd args o) = Ret None)
        by (rewrite Hc; reflexivity).
      apply Complete_nil in Hok as (Hcfg & Hpos & (arg & ->) & Hns).
      rewrite (Complete_fields cmd arg o Hcfg Hpos Hns) in Hc.
      injection Hc as <-. cbn [targetKind]. unfold target.
      destruct (HasPrefix arg "deployment/");
        [right; exists Deployments; reflexivity|].
      destruct (HasPrefix arg "deploy/");
        [right; exists Deployments; reflexivity|].
      destruct (HasPrefix arg "statefulset/");
        [right; exists StatefulSets; reflexivity|].
      destruct (HasPrefix arg "sts/");
        [right; exists StatefulSets; reflexivity|].
      left. reflexivity.
    + unfold RunE. rewrite Hc. apply Forall_nil_2.
  - intros o1 namespace Hnew Hns Hd Hs Hu.
    rewrite (Run_steps o1 w namespace Hnew Hns). cbv zeta.
    rewrite (Run_resolve_known namespace o1 w Hu).
    cbn [events result final fst snd app].
    rewrite (Run_scale_other namespace o1 w Hd Hs). reflexivity.
Qed.

Lemma Run_resolve_keeps namespace o w :
  let res := Run_resolve clientset namespace o w in
  updates (events res) = [] /\ observations (events res) = []
  /\ forall o2 err,
       result res = Ret (o2, err) ->
       maxWaitSeconds o2 = maxWaitSeconds o.
Proof.
  cbv zeta.
  destruct (String.eqb_spec (targetKind o) "unknown") as [Hk|Hk].
  2:{ rewrite (Run_resolve_known namespace o w Hk).
      repeat split. intros o2 err H. injection H as <- _. reflexivity. }
  rewrite (Run_resolve_unknown namespace o w Hk). cbv zeta.
  destruct (GetWorkload_result Deployments namespace (targetName o) w)
    as (_ & Hu1 & Ho1 & _).
  cbn [GetWorkload] in Hu1, Ho1.
  destruct (GetDeployment clientset namespace (targetName o) w)
    as [[w1 t1] [[p1 [e1|]]|pv1]];
    cbn [events result final fst snd] in *.
  3:{ repeat split; try assumption. discriminate. }
  2:{ repeat split; try assumption.
      intros o2 err H. injection H as <- _. reflexivity. }
  destruct (IsNotFound (Some e1)).
  2:{ repeat split; try assumption.
      intros o2 err H. injection H as <- _. reflexivity. }
  destruct (GetWorkload_result StatefulSets namespace (targetName o) w1)
    as (_ & Hu2 & Ho2 & _).
  cbn [GetWorkload] in Hu2, Ho2.
  destruct (GetStatefulSet clientset namespace (targetName o) w1)
    as [[w2 t2] [[p2 err2]|pv2]];
    cbn [events result final fst snd] in *.
  2:{ rewrite updates_app, observations_app, Hu1, Hu2, Ho1, Ho2.
      repeat split. discriminate. }
  destruct (IsNotFound err2); [|destruct err2];
    cbn [events result final fst snd];
    rewrite !updates_app, !observations_app, Hu1, Hu2, Ho1, Ho2;
    repeat split; intros o2 err H; injection H as <- _; reflexivity.
Qed.

(** X20.  [RunE] returns [nil] only after a whole cycle: the options hold
    the kind [deployment] or [statefulset] and a positive number of waiting
    seconds; exactly two updates of the scale were asked for and accepted,
    the first one for 0; and the last poll showed the count asked for in
    the second one. *)
Theorem RunE_nil cmd args o w o' :
  result (RunE clientset cmd args o w) = Ret (o', None) ->
  (exists k, targetKind o' = kind_name k)
  /\ 0 < maxWaitSeconds o'
  /\ exists sc0 a0 sc1 a1 s e,
       updates (events (RunE clientset cmd args o w))
       = [(sc0, (a0, None)); (sc1, (a1, None))]
       /\ scale_Spec_Replicas sc0 = 0
       /\ last (observations (events (RunE clientset cmd args o w)))
          = Some (Some s, e)
       /\ scale_Status_Replicas s = scale_Spec_Replicas sc1.
Proof.
  destruct (Complete cmd args o) as [o1 [[e|]|p]] eqn:Hc;
    [unfold RunE; rewrite Hc; discriminate | |
     unfold RunE; rewrite Hc; discriminate].
  rewrite (RunE_Run cmd args o o1 w Hc).
  assert (Hpos : 0 < maxWaitSeconds o1).
  { assert (Hok : snd (Complete cmd args o) = Ret None)
      by (rewrite Hc; reflexivity).
    apply Complete_nil in Hok as (Hcfg & Hpos & (arg & ->) & Hns).
    rewrite (Complete_fields cmd arg o Hcfg Hpos Hns) in Hc.
    injection Hc as <-. exact Hpos. }
  destruct (NewForConfig clientset (restConfig o1)) eqn:Hnew.
  { unfold Run. rewrite Hnew. discriminate. }
  destruct (Run_namespace_pure o1 w) as [[namespace|p] Hns].
  2:{ unfold Run. rewrite Hnew. rewrite (bind_Panic _ _ _ _ _ _ Hns).
      discriminate. }
  rewrite (Run_steps o1 w namespace Hnew Hns). cbv zeta.
  destruct (Run_resolve_keeps namespace o1 w) as (Hu & Ho & Hkeep).
  destruct (Run_resolve clientset namespace o1 w)
    as [[w1 t1] [[o2 [e|]]|p]];
    cbn [events result final fst snd] in *; try discriminate.
  specialize (Hkeep o2 None eq_refl).
  assert (Hkind : (exists k, targetKind o2 = kind_name k)
                  \/ (targetKind o2 <> "deployment"
                      /\ targetKind o2 <> "statefulset")).
  { destruct (String.eqb_spec (targetKind o2) "deployment") as [Hd|Hd];
      [left; exists Deployments; exact Hd|].
    destruct (String.eqb_spec (targetKind o2) "statefulset") as [Hs|Hs];
      [left; exists StatefulSets; exact Hs|].
    right. split; assumption. }
  destruct Hkind as [[k Hkind] | [Hd Hs]].
  2:{ rewrite (Run_scale_other namespace o2 w1 Hd Hs). discriminate. }
  rewrite (Run_scale_kind k namespace o2 w1 Hkind). cbv zeta.
  pose proof (ScaleWorkload_run clientset k namespace (targetName o2)
                (maxWaitSeconds o2) w1) as Hrun.
  destruct (ScaleWorkload clientset k namespace (targetName o2)
              (maxWaitSeconds o2) w1) as [[w2 t2] [[e|]|p]];
    cbn [with_options events result final fst snd] in *;
    try discriminate.
  intros Hres. injection Hres as <-.
  split; [exists k; exact Hkind|]. split; [lia|].
  destruct (cycle_run_nil _ _ _ _ _ Hrun)
    as (sc0 & a0 & sc1 & a1 & s & e & Hupd & Hzero & Hlast & Hsame).
  exists sc0, a0, sc1, a1, s, e.
  rewrite updates_app, observations_app, Hu, Ho. cbn [app].
  repeat split; assumption.
Qed.

End More_on_Run.

(** ** More runs on the small cluster *)

Lemma WaitForReplicas_more_tries_witness :
  result (WaitForReplicas Sim.client Deployments "default" "nginx" 0 2
            Sim.draining) = Ret None
  /\ WaitForReplicas Sim.client Deployments "default" "nginx" 0 300
       Sim.draining
     = WaitForReplicas Sim.client Deployments "default" "nginx" 0 2
         Sim.draining.
Proof.
  split; [vm_compute; reflexivity|].
  apply (WaitForReplicas_more_tries Sim.client Deployments "default" "nginx"
           0 2 300 Sim.draining); [lia|].
  intros e. vm_compute. discriminate.
Defined.

Lemma ScaleWorkload_no_time_witness :
  result (ScaleWorkload Sim.client Deployments "default" "nginx" 0 Sim.nginx)
  = Panic (PanicText (Error (WaitTimeout Deployments "default" "nginx" 0 0)))
  /\ after_updates 1
       (events (ScaleWorkload Sim.client Deployments "default" "nginx" 0
                  Sim.nginx)) = [].
Proof.
  assert (H1 :
    updates (events (ScaleWorkload Sim.client Deployments "default" "nginx"
                       0 Sim.nginx)) !! 0%nat
    = Some ({| scale_Spec_Replicas := 0; scale_Status_Replicas := 3 |},
            (Some {| scale_Spec_Replicas := 0; scale_Status_Replicas := 3 |},
             None)))
    by (vm_compute; reflexivity).
  destruct (ScaleWorkload_no_time Sim.client Deployments "default" "nginx" 0
              Sim.nginx _ _ ltac:(lia) H1) as (Hr & _ & Ha).
  split; [exact Hr | exact Ha].
Defined.

Lemma Complete_initialises_witness :
  snd (Complete (Sim.command 300) ["deploy/nginx"] Sim.fresh) = Ret None
  /\ Complete (Sim.command 300) ["deploy/nginx"] (Sim.bare "web")
     = Complete (Sim.command 300) ["deploy/nginx"] Sim.fresh.
Proof.
  assert (Hok : snd (Complete (Sim.command 300) ["deploy/nginx"] Sim.fresh)
                = Ret None) by (vm_compute; reflexivity).
  split; [exact Hok|].
  apply (Complete_initialises (Sim.command 300) ["deploy/nginx"] Sim.fresh
           (Sim.bare "web") Hok).
Defined.

Lemma Complete_argument_witness :
  snd (Complete (Sim.command 300) ["statefulset/mysql"] Sim.fresh) = Ret None
  /\ "statefulset/mysql"
     = ("statefulset/"
        ++ targetName
             (fst (Complete (Sim.command 300) ["statefulset/mysql"]
                     Sim.fresh)))%string.
Proof.
  assert (Hok : snd (Complete (Sim.command 300) ["statefulset/mysql"]
                       Sim.fresh) = Ret None) by (vm_compute; reflexivity).
  split; [exact Hok|].
  destruct (Complete_argument (Sim.command 300) "statefulset/mysql" Sim.fresh
              Hok) as [(Hk & _) | [(_ & [H | H]) | (Hk & _)]].
  - vm_compute in Hk. discriminate Hk.
  - exact H.
  - reflexivity.
  - vm_compute in Hk. discriminate Hk.
Defined.

Lemma RunE_validates_first_witness :
  snd (Complete (Sim.command 300) [] Sim.fresh) <> Ret None
  /\ events (RunE Sim.client (Sim.command 300) [] Sim.fresh Sim.nginx) = []
  /\ final (RunE Sim.client (Sim.command 300) [] Sim.fresh Sim.nginx)
     = Sim.nginx.
Proof.
  assert (Hno : snd (Complete (Sim.command 300) [] Sim.fresh) <> Ret None)
    by (vm_compute; discriminate).
  destruct (RunE_validates_first Sim.client (Sim.command 300) [] Sim.fresh
              Sim.nginx Hno) as (He & Hf & _).
  split; [exact Hno|]. split; [exact He | exact Hf].
Defined.

Lemma Run_given_kind_witness :
  targetKind (fst (Complete (Sim.command 300) ["sts/web"] Sim.fresh))
  = kind_name StatefulSets
  /\ no_request_on Deployments
       (events (Run Sim.client
                  (fst (Complete (Sim.command 300) ["sts/web"] Sim.fresh))
                  Sim.both)).
Proof.
  assert (Hk : targetKind (fst (Complete (Sim.command 300) ["sts/web"]
                                  Sim.fresh)) = kind_name StatefulSets)
    by (vm_compute; reflexivity).
  assert (Hns : Run_namespace
                  (fst (Complete (Sim.command 300) ["sts/web"] Sim.fresh))
                  Sim.both = (Sim.both, [], Ret "default"))
    by (vm_compute; reflexivity).
  split; [exact Hk|].
  exact (proj2 (Run_given_kind Sim.client StatefulSets _ Sim.both "default"
                  eq_refl Hns Hk)).
Defined.

Lemma Run_statefulset_fallback_witness :
  targetKind (Sim.bare "mysql") = "unknown"
  /\ result (Run Sim.client (Sim.bare "mysql") Sim.pending)
     = with_options (set_targetKind "statefulset" (Sim.bare "mysql"))
         (result (ScaleStatefulSet Sim.client "default" "mysql" 300
                    Sim.pending)).
Proof.
  assert (Hk : targetKind (Sim.bare "mysql") = "unknown")
    by (vm_compute; reflexivity).
  assert (Hns : Run_namespace (Sim.bare "mysql") Sim.pending
                = (Sim.pending, [], Ret "default"))
    by (vm_compute; reflexivity).
  split; [exact Hk|].
  rewrite (Run_statefulset_fallback Sim.client (Sim.bare "mysql") Sim.pending
             "default" eq_refl Hns Hk eq_refl eq_refl).
  reflexivity.
Defined.

Lemma Run_updates_only_if_found_witness :
  updates (events (Run Sim.client (Sim.bare "web") Sim.both)) <> []
  /\ snd (snd (Get Sim.client Deployments "default" "web" Sim.both)) = None.
Proof.
  assert (Hu : updates (events (Run Sim.client (Sim.bare "web") Sim.both))
               <> []) by (vm_compute; discriminate).
  assert (Hk : targetKind (Sim.bare "web") = "unknown")
    by (vm_compute; reflexivity).
  assert (Hns : Run_namespace (Sim.bare "web") Sim.both
                = (Sim.both, [], Ret "default"))
    by (vm_compute; reflexivity).
  split; [exact Hu|].
  destruct (Run_updates_only_if_found Sim.client (Sim.bare "web") Sim.both
              "default" eq_refl Hns Hk Hu) as [H | [H _]].
  - exact H.
  - vm_compute in H. discriminate H.
Defined.

Lemma RunE_nil_witness :
  exists o',
    result (RunE Sim.client (Sim.command 300) ["nginx"] Sim.fresh Sim.nginx)
    = Ret (o', None)
    /\ targetKind o' = kind_name Deployments
    /\ 0 < maxWaitSeconds o'.
Proof.
  eexists. split; [vm_compute; reflexivity|].
  split; [vm_compute; reflexivity|].
  exact (proj1 (proj2 (RunE_nil Sim.client (Sim.command 300) ["nginx"]
                         Sim.fresh Sim.nginx _
                         ltac:(vm_compute; reflexivity)))).
Defined.

(** ** The workload [Run] works on *)


Section Run_target.
Context {W : Type} (clientset : Clientset W).



End Run_target.
